(** * Camel Hugging Face task handlers: a shallow embedding

    The eight Python scripts under
    [org/apache/camel/component/huggingface/tasks] each define one function
    [handle(inputs)] that is run inside a model server.  This development
    embeds the eight functions, together with the fragment of Python, of the
    [json] module, of [numpy] and of the host envelopes ([Input], [Output])
    they rely on, and proves properties of the handlers.

    Conventions.
    - A Python [str] is a [string]; each character stands for the code point
      of the same number (0..255).
    - A Python [float] is carried by its decimal literal ([repr]); no handler
      does arithmetic on floats, they are only moved around.
    - [exn] stands for an instance of [Exception], the class every handler
      catches; [exn_msg] is what [str(e)] returns.  The signals that derive
      from [BaseException] only ([SystemExit], [KeyboardInterrupt]) are
      outside the model.
    - The messages of the exceptions the interpreter and the libraries raise
      are those of CPython 3.12, of its C [json] scanner and of NumPy 2; no
      statement depends on their wording, except where it is quoted.
    - The pipeline, the random number generator and the conversion of a JSON
      value to a 32-bit array are parameters ([Env]): the scripts only call
      them. *)

From Stdlib Require Import String Ascii List ZArith Bool Lia Arith.
From Stdlib Require Import DecimalString.
Import ListNotations.
Local Open Scope string_scope.
Local Open Scope Z_scope.
Local Set Warnings "-register-all".

(** ** Python values *)

Inductive pyval : Type :=
| VNone
| VBool (b : bool)
| VInt (z : Z)
| VFloat (lit : string)
| VStr (s : string)
| VBytes (b : string)
| VList (l : list pyval)
| VDict (d : list (string * pyval))
| VArray (shape : list nat) (data : list pyval)   (* numpy.ndarray *)
| VImage (png : string)                           (* PIL image, by its PNG encoding *)
| VObj (cls : string) (attrs : list (string * pyval)).

Record exn : Type := mkExn { exn_class : string; exn_msg : string }.

Inductive res (A : Type) : Type :=
| Ok (a : A)
| Raise (e : exn).
Arguments Ok {A} a.
Arguments Raise {A} e.

Definition rbind {A B} (r : res A) (k : A -> res B) : res B :=
  match r with
  | Ok a => k a
  | Raise e => Raise e
  end.

Declare Scope res_scope.
Delimit Scope res_scope with res.
Notation "x <~ c ;; k" := (rbind c (fun x => k))
  (at level 61, c at next level, right associativity) : res_scope.

Definition TypeError (m : string) : exn := mkExn "TypeError" m.
Definition KeyError (m : string) : exn := mkExn "KeyError" m.
Definition IndexError (m : string) : exn := mkExn "IndexError" m.
Definition ValueError (m : string) : exn := mkExn "ValueError" m.
Definition AttributeError (m : string) : exn := mkExn "AttributeError" m.

(** ** Built-in operations used by the handlers *)

Module Py.

Definition type_name (v : pyval) : string :=
  match v with
  | VNone => "NoneType"
  | VBool _ => "bool"
  | VInt _ => "int"
  | VFloat _ => "float"
  | VStr _ => "str"
  | VBytes _ => "bytes"
  | VList _ => "list"
  | VDict _ => "dict"
  | VArray _ _ => "ndarray"
  | VImage _ => "Image"
  | VObj c _ => c
  end.

Definition str_of_Z (z : Z) : string := NilZero.string_of_int (Z.to_int z).

Fixpoint lookup {A} (k : string) (d : list (string * A)) : option A :=
  match d with
  | [] => None
  | (k', v) :: d' => if String.eqb k k' then Some v else lookup k d'
  end.

(** [repr] of the key constants the handlers subscript with (they contain no
    quote and no backslash). *)
Definition repr_key (k : string) : string := "'" ++ k ++ "'".

(** A float literal denotes zero when its mantissa has no non-zero digit. *)
Fixpoint mantissa_zero (s : string) : bool :=
  match s with
  | EmptyString => true
  | String c s' =>
      if (Ascii.eqb c "e" || Ascii.eqb c "E")%bool then true
      else if (Ascii.eqb c "0" || Ascii.eqb c "." || Ascii.eqb c "-" || Ascii.eqb c "+")%bool
           then mantissa_zero s'
           else false
  end.

Definition size_of (shape : list nat) : nat := fold_right Nat.mul 1%nat shape.

Definition ambiguous_truth : exn :=
  ValueError "The truth value of an array with more than one element is ambiguous. Use a.any() or a.all()".

Definition empty_truth : exn :=
  ValueError "The truth value of an empty array is ambiguous. Use `array.size > 0` to check that an array is not empty.".

(** Truth value of a scalar or container that is not an array. *)
Definition truthy_plain (v : pyval) : bool :=
  match v with
  | VNone => false
  | VBool b => b
  | VInt z => negb (z =? 0)
  | VFloat lit => negb (mantissa_zero lit)
  | VStr s => negb (String.eqb s "")
  | VBytes b => negb (String.eqb b "")
  | VList l => match l with [] => false | _ => true end
  | VDict d => match d with [] => false | _ => true end
  | _ => true
  end.

(** [bool(v)]; for an array, NumPy decides by its number of elements. *)
Definition truthy (v : pyval) : res bool :=
  match v with
  | VArray shape data =>
      match data with
      | [] => Raise empty_truth
      | [x] => Ok (truthy_plain x)
      | _ => Raise ambiguous_truth
      end
  | _ => Ok (truthy_plain v)
  end.

(** [isinstance(v, list)]. *)
Definition isinstance_list (v : pyval) : bool :=
  match v with VList _ => true | _ => false end.

(** Position of index [i] in a sequence of length [n], Python style. *)
Definition norm_index (i : Z) (n : nat) : option nat :=
  let j := if i <? 0 then i + Z.of_nat n else i in
  if (0 <=? j) && (j <? Z.of_nat n) then Some (Z.to_nat j) else None.

Fixpoint string_nth (n : nat) (s : string) : option ascii :=
  match s, n with
  | EmptyString, _ => None
  | String c _, O => Some c
  | String _ s', S n' => string_nth n' s'
  end.

Definition not_subscriptable (v : pyval) : exn :=
  TypeError ("'" ++ type_name v ++ "' object is not subscriptable").

Definition array_row (shape : list nat) (data : list pyval) (j : nat) : pyval :=
  match shape with
  | [] => VNone
  | _ :: rest =>
      let w := size_of rest in
      let row := firstn w (skipn (j * w) data) in
      match rest, row with
      | [], [x] => x
      | _, _ => VArray rest row
      end
  end.

(** [v[i]] for an integer literal [i]. *)
Definition getitem_int (v : pyval) (i : Z) : res pyval :=
  match v with
  | VList l =>
      match norm_index i (length l) with
      | Some j => match nth_error l j with
                  | Some x => Ok x
                  | None => Raise (IndexError "list index out of range")
                  end
      | None => Raise (IndexError "list index out of range")
      end
  | VDict _ => Raise (KeyError (str_of_Z i))
  | VStr s =>
      match norm_index i (String.length s) with
      | Some j => match string_nth j s with
                  | Some c => Ok (VStr (String c EmptyString))
                  | None => Raise (IndexError "string index out of range")
                  end
      | None => Raise (IndexError "string index out of range")
      end
  | VBytes s =>
      match norm_index i (String.length s) with
      | Some j => match string_nth j s with
                  | Some c => Ok (VInt (Z.of_nat (nat_of_ascii c)))
                  | None => Raise (IndexError "index out of range")
                  end
      | None => Raise (IndexError "index out of range")
      end
  | VArray shape data =>
      match shape with
      | [] => Raise (IndexError
                "too many indices for array: array is 0-dimensional, but 1 were indexed")
      | n :: _ =>
          match norm_index i n with
          | Some j => Ok (array_row shape data j)
          | None => Raise (IndexError
                      ("index " ++ str_of_Z i ++ " is out of bounds for axis 0 with size "
                       ++ str_of_Z (Z.of_nat n)))
          end
      end
  | _ => Raise (not_subscriptable v)
  end.

(** [v[k]] for a string literal [k]. *)
Definition getitem_str (v : pyval) (k : string) : res pyval :=
  match v with
  | VDict d =>
      match lookup k d with
      | Some x => Ok x
      | None => Raise (KeyError (repr_key k))
      end
  | VList _ => Raise (TypeError "list indices must be integers or slices, not str")
  | VStr _ => Raise (TypeError "string indices must be integers, not 'str'")
  | VBytes _ => Raise (TypeError "byte indices must be integers or slices, not str")
  | VArray _ _ => Raise (IndexError
      "only integers, slices (`:`), ellipsis (`...`), numpy.newaxis (`None`) and integer or boolean arrays are valid indices")
  | _ => Raise (not_subscriptable v)
  end.

Fixpoint prefixb (p s : string) : bool :=
  match p, s with
  | EmptyString, _ => true
  | String a p', String b s' => Ascii.eqb a b && prefixb p' s'
  | _, _ => false
  end.

Fixpoint substringb (p s : string) : bool :=
  prefixb p s ||
  match s with
  | EmptyString => false
  | String _ s' => substringb p s'
  end.

Definition is_str (k : string) (v : pyval) : bool :=
  match v with VStr s => String.eqb s k | _ => false end.

(** [k in v] for a string literal [k]. *)
Definition contains (k : string) (v : pyval) : res bool :=
  match v with
  | VDict d => Ok (match lookup k d with Some _ => true | None => false end)
  | VList l => Ok (existsb (is_str k) l)
  | VStr s => Ok (substringb k s)
  | VBytes _ => Raise (TypeError "a bytes-like object is required, not 'str'")
  | VArray _ data => Ok (existsb (is_str k) data)
  | _ => Raise (TypeError ("argument of type '" ++ type_name v ++ "' is not iterable"))
  end.

(** [len(v)]. *)
Definition len (v : pyval) : res Z :=
  match v with
  | VList l => Ok (Z.of_nat (length l))
  | VDict d => Ok (Z.of_nat (length d))
  | VStr s | VBytes s => Ok (Z.of_nat (String.length s))
  | VArray (n :: _) _ => Ok (Z.of_nat n)
  | VArray [] _ => Raise (TypeError "len() of unsized object")
  | _ => Raise (TypeError ("object of type '" ++ type_name v ++ "' has no len()"))
  end.

Definition string_tail (s : string) : string :=
  match s with EmptyString => EmptyString | String _ s' => s' end.

(** [v[1:]]. *)
Definition slice_from_1 (v : pyval) : res pyval :=
  match v with
  | VList l => Ok (VList (tl l))
  | VStr s => Ok (VStr (string_tail s))
  | VBytes s => Ok (VBytes (string_tail s))
  | VDict _ => Raise (KeyError "slice(1, None, None)")
  | VArray (n :: rest) data =>
      Ok (VArray (Nat.pred n :: rest) (skipn (size_of rest) data))
  | VArray [] _ => Raise (IndexError
      "too many indices for array: array is 0-dimensional, but 1 were indexed")
  | _ => Raise (not_subscriptable v)
  end.

(** [v.name]: only plain objects carry attributes in this model. *)
Definition getattr (v : pyval) (name : string) : res pyval :=
  match v with
  | VObj c attrs =>
      match lookup name attrs with
      | Some x => Ok x
      | None => Raise (AttributeError
                  ("'" ++ c ++ "' object has no attribute '" ++ name ++ "'"))
      end
  | _ => Raise (AttributeError
           ("'" ++ type_name v ++ "' object has no attribute '" ++ name ++ "'"))
  end.

(** [d[k] = v] on the entries of a dict: an existing key keeps its place. *)
Fixpoint dict_set (k : string) (v : pyval) (d : list (string * pyval))
  : list (string * pyval) :=
  match d with
  | [] => [(k, v)]
  | (k', v') :: d' =>
      if String.eqb k k' then (k, v) :: d' else (k', v') :: dict_set k v d'
  end.

(** [v[k] = x] for a string literal [k]. *)
Definition setitem_str (v : pyval) (k : string) (x : pyval) : res pyval :=
  match v with
  | VDict d => Ok (VDict (dict_set k x d))
  | VList _ => Raise (TypeError "list indices must be integers or slices, not str")
  | VArray _ _ => Raise (IndexError
      "only integers, slices (`:`), ellipsis (`...`), numpy.newaxis (`None`) and integer or boolean arrays are valid indices")
  | _ => Raise (TypeError
           ("'" ++ type_name v ++ "' object does not support item assignment"))
  end.

End Py.

(** ** The [json] module

    [dumps] follows [json.dumps] with its default arguments
    ([ensure_ascii=True], separators [", "] and [": "]); [loads] follows
    [json.loads] (the scanner and [JSONDecodeError] of [json.decoder]). *)

Module Json.

Definition hex_digit (n : nat) : ascii :=
  match n with
  | 0 => "0" | 1 => "1" | 2 => "2" | 3 => "3" | 4 => "4" | 5 => "5" | 6 => "6"
  | 7 => "7" | 8 => "8" | 9 => "9" | 10 => "a" | 11 => "b" | 12 => "c"
  | 13 => "d" | 14 => "e" | _ => "f"
  end%nat%char.

Definition printable (c : ascii) : bool :=
  let n := nat_of_ascii c in ((32 <=? n) && (n <=? 126))%nat.

(** One character of [py_encode_basestring_ascii]. *)
Definition escape_char (c : ascii) : string :=
  let n := nat_of_ascii c in
  if Ascii.eqb c "034" then String "\" (String "034" EmptyString)
  else if Ascii.eqb c "\" then "\\"
  else if printable c then String c EmptyString
  else match n with
       | 8 => "\b" | 9 => "\t" | 10 => "\n" | 12 => "\f" | 13 => "\r"
       | _ => String "\" (String "u" (String "0" (String "0"
                (String (hex_digit (n / 16)) (String (hex_digit (n mod 16)) EmptyString)))))
       end%nat.

Fixpoint escape (s : string) : string :=
  match s with
  | EmptyString => EmptyString
  | String c s' => escape_char c ++ escape s'
  end.

Definition quote (s : string) : string :=
  String "034" (escape s ++ String "034" EmptyString).

Definition float_text (lit : string) : string :=
  if String.eqb lit "nan" then "NaN"
  else if String.eqb lit "inf" then "Infinity"
  else if String.eqb lit "-inf" then "-Infinity"
  else lit.

Definition not_serializable (v : pyval) : exn :=
  TypeError ("Object of type " ++ Py.type_name v ++ " is not JSON serializable").

Fixpoint join (sep : string) (l : list string) : string :=
  match l with
  | [] => EmptyString
  | [x] => x
  | x :: r => x ++ sep ++ join sep r
  end.

Fixpoint dumps (v : pyval) : res string :=
  match v with
  | VNone => Ok "null"
  | VBool true => Ok "true"
  | VBool false => Ok "false"
  | VInt z => Ok (Py.str_of_Z z)
  | VFloat lit => Ok (float_text lit)
  | VStr s => Ok (quote s)
  | VList l =>
      (items <~ (fix each (l : list pyval) : res (list string) :=
                   match l with
                   | [] => Ok []
                   | x :: r => (s <~ dumps x ;; ss <~ each r ;; Ok (s :: ss))%res
                   end) l ;;
       Ok ("[" ++ join ", " items ++ "]"))%res
  | VDict d =>
      (items <~ (fix each (d : list (string * pyval)) : res (list string) :=
                   match d with
                   | [] => Ok []
                   | (k, x) :: r =>
                       (s <~ dumps x ;; ss <~ each r ;; Ok ((quote k ++ ": " ++ s) :: ss))%res
                   end) d ;;
       Ok ("{" ++ join ", " items ++ "}"))%res
  | _ => Raise (not_serializable v)
  end.

(** *** Decoder *)

Inductive pres (A : Type) : Type :=
| POk (a : A) (rest : string)
| PFail (msg : string) (remaining : nat)   (* input left at the error position *)
| PErr (e : exn).
Arguments POk {A} a rest.
Arguments PFail {A} msg remaining.
Arguments PErr {A} e.

Definition is_ws (c : ascii) : bool :=
  (Ascii.eqb c " " || Ascii.eqb c "009" || Ascii.eqb c "010" || Ascii.eqb c "013")%bool.

Fixpoint skip_ws (s : string) : string :=
  match s with
  | String c s' => if is_ws c then skip_ws s' else s
  | EmptyString => s
  end.

Definition is_digit (c : ascii) : bool :=
  let n := nat_of_ascii c in ((48 <=? n) && (n <=? 57))%nat.

Definition hex_val (c : ascii) : option nat :=
  let n := nat_of_ascii c in
  if ((48 <=? n) && (n <=? 57))%nat then Some (n - 48)%nat
  else if ((97 <=? n) && (n <=? 102))%nat then Some (n - 87)%nat
  else if ((65 <=? n) && (n <=? 70))%nat then Some (n - 55)%nat
  else None.

Definition hex4 (a b c d : ascii) : option nat :=
  match hex_val a, hex_val b, hex_val c, hex_val d with
  | Some x, Some y, Some z, Some w => Some (((x * 16 + y) * 16 + z) * 16 + w)%nat
  | _, _, _, _ => None
  end.

Definition unescape (c : ascii) : option ascii :=
  (if Ascii.eqb c "034" then Some "034"
   else if Ascii.eqb c "\" then Some "\"
   else if Ascii.eqb c "/" then Some "/"
   else if Ascii.eqb c "b" then Some "008"
   else if Ascii.eqb c "f" then Some "012"
   else if Ascii.eqb c "n" then Some "010"
   else if Ascii.eqb c "r" then Some "013"
   else if Ascii.eqb c "t" then Some "009"
   else None)%char.

(** The code points below 32: the three high bits are clear. *)
Definition is_control (c : ascii) : bool :=
  match c with
  | Ascii _ _ _ _ _ false false false => true
  | _ => false
  end.

Fixpoint string_rev_app (acc : list ascii) (s : string) : string :=
  match acc with
  | [] => s
  | c :: acc' => string_rev_app acc' (String c s)
  end.

(** Escapes above U+00FF denote characters outside the modelled fragment of
    [str]; the decoder reports them with an error class of its own. *)
Definition unsupported_code_point : exn :=
  mkExn "UnsupportedCodePoint" "escape above U+00FF".

(** [scanstring] after the opening quote; [start] is the input left at the
    opening quote. *)
Fixpoint scan_string (start : nat) (s : string) (acc : list ascii) : pres string :=
  match s with
  | EmptyString => PFail "Unterminated string starting at" start
  | String c s' =>
      if Ascii.eqb c "034" then POk (string_rev_app acc EmptyString) s'
      else if Ascii.eqb c "\" then
        match s' with
        | EmptyString => PFail "Unterminated string starting at" start
        | String e s'' =>
            if Ascii.eqb e "u" then
              match s'' with
              | String h1 (String h2 (String h3 (String h4 (String _ _ as rest)))) =>
                  match hex4 h1 h2 h3 h4 with
                  | Some n =>
                      if (n <? 256)%nat then scan_string start rest (ascii_of_nat n :: acc)
                      else PErr unsupported_code_point
                  | None => PFail "Invalid \uXXXX escape" (String.length s')
                  end
              | _ => PFail "Invalid \uXXXX escape" (String.length s')
              end
            else
              match unescape e with
              | Some x => scan_string start s'' (x :: acc)
              | None => PFail "Invalid \escape" (String.length s)
              end
        end
      else if is_control c then
        PFail "Invalid control character at" (String.length s)
      else scan_string start s' (c :: acc)
  end.

Fixpoint span_digits (s : string) : string * string :=
  match s with
  | String c s' =>
      if is_digit c then let (d, r) := span_digits s' in (String c d, r)
      else (EmptyString, s)
  | EmptyString => (EmptyString, s)
  end.

(** The integer part of [NUMBER_RE]: [0] or a non-zero digit and digits. *)
Definition scan_int (s : string) : option (string * string) :=
  match s with
  | String c s' =>
      if Ascii.eqb c "0" then Some ("0", s')
      else if is_digit c then let (d, r) := span_digits s' in Some (String c d, r)
      else None
  | EmptyString => None
  end.

Definition scan_frac (s : string) : string * string :=
  match s with
  | String c s' =>
      if Ascii.eqb c "." then
        match span_digits s' with
        | (EmptyString, _) => (EmptyString, s)
        | (d, r) => (String "." d, r)
        end
      else (EmptyString, s)
  | EmptyString => (EmptyString, s)
  end.

Definition scan_exp (s : string) : string * string :=
  match s with
  | String e s' =>
      if (Ascii.eqb e "e" || Ascii.eqb e "E")%bool then
        let (sign, s'') :=
          match s' with
          | String g t => if (Ascii.eqb g "+" || Ascii.eqb g "-")%bool
                          then (String g EmptyString, t) else (EmptyString, s')
          | EmptyString => (EmptyString, s')
          end in
        match span_digits s'' with
        | (EmptyString, _) => (EmptyString, s)
        | (d, r) => (String e (sign ++ d), r)
        end
      else (EmptyString, s)
  | EmptyString => (EmptyString, s)
  end.

Fixpoint digits_value (s : string) (acc : Z) : Z :=
  match s with
  | EmptyString => acc
  | String c s' => digits_value s' (10 * acc + Z.of_nat (nat_of_ascii c - 48))
  end.

Definition scan_number (s : string) : option (pyval * string) :=
  let (neg, body) :=
    match s with
    | String c s' => if Ascii.eqb c "-" then (true, s') else (false, s)
    | EmptyString => (false, s)
    end in
  match scan_int body with
  | None => None
  | Some (ip, r1) =>
      let (fp, r2) := scan_frac r1 in
      let (ep, r3) := scan_exp r2 in
      match fp, ep with
      | EmptyString, EmptyString =>
          let n := digits_value ip 0 in Some (VInt (if neg then - n else n), r3)
      | _, _ => Some (VFloat ((if neg then "-" else "") ++ ip ++ fp ++ ep), r3)
      end
  end.

Fixpoint strip_prefix (p s : string) : option string :=
  match p, s with
  | EmptyString, _ => Some s
  | String a p', String b s' => if Ascii.eqb a b then strip_prefix p' s' else None
  | _, _ => None
  end.

(** The scanners below recurse on a fuel; [loads] gives them more than a
    document of its length can use (lemma [loads_fuel]), so this exception is
    never seen.  The interpreter's own limit on nesting is not modelled. *)
Definition recursion_error : exn :=
  mkExn "RecursionError" "maximum recursion depth exceeded while decoding a JSON document".

Definition expecting_name : string := "Expecting property name enclosed in double quotes".

(** The constants [null], [true], [false], then a number, then [NaN],
    [Infinity] and [-Infinity]. *)
Definition scan_atom (s : string) : pres pyval :=
  match strip_prefix "null" s, strip_prefix "true" s, strip_prefix "false" s with
  | Some rest, _, _ => POk VNone rest
  | _, Some rest, _ => POk (VBool true) rest
  | _, _, Some rest => POk (VBool false) rest
  | None, None, None =>
      match scan_number s with
      | Some (v, rest) => POk v rest
      | None =>
          match strip_prefix "NaN" s, strip_prefix "Infinity" s,
                strip_prefix "-Infinity" s with
          | Some rest, _, _ => POk (VFloat "nan") rest
          | _, Some rest, _ => POk (VFloat "inf") rest
          | _, _, Some rest => POk (VFloat "-inf") rest
          | None, None, None => PFail "Expecting value" (String.length s)
          end
      end
  end.

Fixpoint scan_once (fuel : nat) (s : string) : pres pyval :=
  match fuel with
  | O => PErr recursion_error
  | S fuel' =>
      match s with
      | EmptyString => PFail "Expecting value" 0
      | String c s' =>
          if Ascii.eqb c "034" then
            match scan_string (String.length s) s' [] with
            | POk x rest => POk (VStr x) rest
            | PFail m r => PFail m r
            | PErr e => PErr e
            end
          else if Ascii.eqb c "{" then
            match skip_ws s' with
            | EmptyString => PFail expecting_name 0
            | String c' rest as t =>
                if Ascii.eqb c' "}" then POk (VDict []) rest
                else scan_pairs fuel' t []
            end
          else if Ascii.eqb c "[" then
            match skip_ws s' with
            | EmptyString => scan_items fuel' EmptyString []
            | String c' rest as t =>
                if Ascii.eqb c' "]" then POk (VList []) rest
                else scan_items fuel' t []
            end
          else scan_atom s
      end
  end

(** [JSONArray], positioned at the start of an element. *)
with scan_items (fuel : nat) (s : string) (acc : list pyval) : pres pyval :=
  match fuel with
  | O => PErr recursion_error
  | S fuel' =>
      match scan_once fuel' s with
      | POk v rest =>
          match skip_ws rest with
          | EmptyString => PFail "Expecting ',' delimiter" 0
          | String c rest' as t =>
              if Ascii.eqb c "]" then POk (VList (rev (v :: acc))) rest'
              else if Ascii.eqb c "," then scan_items fuel' (skip_ws rest') (v :: acc)
              else PFail "Expecting ',' delimiter" (String.length t)
          end
      | PFail m r => PFail m r
      | PErr e => PErr e
      end
  end

(** [JSONObject], positioned where a key has to start. *)
with scan_pairs (fuel : nat) (s : string) (acc : list (string * pyval)) : pres pyval :=
  match fuel with
  | O => PErr recursion_error
  | S fuel' =>
      match s with
      | EmptyString => PFail expecting_name 0
      | String q s' =>
          if Ascii.eqb q "034" then
            match scan_string (String.length s) s' [] with
            | POk k rest =>
                match skip_ws rest with
                | EmptyString => PFail "Expecting ':' delimiter" 0
                | String c rest' as t =>
                    if Ascii.eqb c ":" then
                      match scan_once fuel' (skip_ws rest') with
                      | POk v rest'' =>
                          match skip_ws rest'' with
                          | EmptyString => PFail "Expecting ',' delimiter" 0
                          | String c' r as t' =>
                              if Ascii.eqb c' "}" then POk (VDict (Py.dict_set k v acc)) r
                              else if Ascii.eqb c' "," then
                                scan_pairs fuel' (skip_ws r) (Py.dict_set k v acc)
                              else PFail "Expecting ',' delimiter" (String.length t')
                          end
                      | PFail m r => PFail m r
                      | PErr e => PErr e
                      end
                    else PFail "Expecting ':' delimiter" (String.length t)
                end
            | PFail m r => PFail m r
            | PErr e => PErr e
            end
          else PFail expecting_name (String.length s)
      end
  end.

Fixpoint string_firstn (n : nat) (s : string) : string :=
  match n, s with
  | S n', String c s' => String c (string_firstn n' s')
  | _, _ => EmptyString
  end.

(** Line and column of a prefix: [(lineno, colno)] as [JSONDecodeError]
    computes them. *)
Fixpoint line_col (prefix : string) (line col : nat) : nat * nat :=
  match prefix with
  | EmptyString => (line, col)
  | String c p' =>
      if Ascii.eqb c "010" then line_col p' (S line) 1%nat
      else line_col p' line (S col)
  end.

Definition JSONDecodeError (msg doc : string) (pos : nat) : exn :=
  let (l, c) := line_col (string_firstn pos doc) 1%nat 1%nat in
  mkExn "JSONDecodeError"
    (msg ++ ": line " ++ Py.str_of_Z (Z.of_nat l) ++ " column " ++ Py.str_of_Z (Z.of_nat c)
         ++ " (char " ++ Py.str_of_Z (Z.of_nat pos) ++ ")").

Definition loads (doc : string) : res pyval :=
  let n := String.length doc in
  match scan_once (2 * n + 2) (skip_ws doc) with
  | POk v rest =>
      match skip_ws rest with
      | EmptyString => Ok v
      | t => Raise (JSONDecodeError "Extra data" doc (n - String.length t))
      end
  | PFail msg remaining => Raise (JSONDecodeError msg doc (n - remaining))
  | PErr e => Raise e
  end.

End Json.

(** ** The fragment of [numpy] used by the text-to-speech handler

    Array elements are kept as they are: the promotion of mixed element
    types to a common dtype is not modelled. *)

Module Np.

Definition inhomogeneous : exn :=
  ValueError
    "setting an array element with a sequence. The requested array has an inhomogeneous shape".

Definition shape_eqb (a b : list nat) : bool :=
  if list_eq_dec Nat.eq_dec a b then true else false.

(** [numpy.asarray]: shape and flat data of an array-like value. *)
Fixpoint asarray (v : pyval) : res (list nat * list pyval) :=
  match v with
  | VArray shape data => Ok (shape, data)
  | VList l =>
      match l with
      | [] => Ok ([0%nat], [])
      | x :: r =>
          (first <~ asarray x ;;
           rest <~ (fix each (l : list pyval) : res (list pyval) :=
                      match l with
                      | [] => Ok []
                      | y :: l' =>
                          (a <~ asarray y ;;
                           if shape_eqb (fst a) (fst first)
                           then (d <~ each l' ;; Ok (snd a ++ d)%list)
                           else Raise inhomogeneous)
                      end) r ;;
           Ok (length l :: fst first, (snd first ++ rest)%list))%res
      end
  | _ => Ok ([], [v])
  end.

(** [numpy.squeeze]: the axes of length one are removed, the data is kept. *)
Definition squeeze_shape (shape : list nat) : list nat :=
  filter (fun n => negb (Nat.eqb n 1)) shape.

Fixpoint rows (n w : nat) (data : list pyval) : list (list pyval) :=
  match n with
  | O => []
  | S n' => firstn w data :: rows n' w (skipn w data)
  end.

(** [ndarray.tolist]: nested lists, one level per axis; a zero-dimensional
    array gives its element. *)
Fixpoint tolist (shape : list nat) (data : list pyval) : pyval :=
  match shape with
  | [] => hd VNone data
  | n :: rest => VList (map (tolist rest) (rows n (Py.size_of rest) data))
  end.

(** [numpy.squeeze(v).tolist()]. *)
Definition squeeze_tolist (v : pyval) : res pyval :=
  (a <~ asarray v ;; Ok (tolist (squeeze_shape (fst a)) (snd a)))%res.

End Np.

(** ** The host envelopes of [djl_python] *)

(** The bytes of a request part: the UTF-8 encoding of a text, or bytes that
    do not decode. *)
Inductive blob : Type :=
| Text (s : string)
| Binary (b : string).

Record Input : Type := mkInput { content : list (string * blob) }.

Record Output : Type := mkOutput { parts : list (string * pyval) }.

Module Djl.

(** [inputs.content.size()]. *)
Definition size (i : Input) : Z := Z.of_nat (length (content i)).

(** [inputs.get_as_string(key)]: the part of that name, decoded; the host
    raises when there is no such part or when its bytes do not decode. *)
Definition get_as_string (i : Input) (key : string) : res string :=
  match Py.lookup key (content i) with
  | Some (Text s) => Ok s
  | Some (Binary _) =>
      Raise (mkExn "UnicodeDecodeError" "'utf-8' codec can't decode bytes: invalid start byte")
  | None => Raise (AttributeError "'NoneType' object has no attribute 'decode'")
  end.

(** [Output()]. *)
Definition new : Output := mkOutput [].

(** [outputs.add(value, key)]. *)
Definition add (o : Output) (value : pyval) (key : string) : Output :=
  mkOutput (parts o ++ [(key, value)]).

End Djl.

(** ** The world a handler runs in

    The pipeline is an opaque capability: a function of the state of the
    global random number generator and of its arguments, which returns a
    result or raises, and leaves the generator in a new state. *)

Record pycall : Type := mkCall { args : list pyval; kwargs : list (string * pyval) }.

Inductive event : Type :=
| EvLog (level msg : string)
| EvSeed (seed : Z)
| EvPipe (c : pycall) (r : res pyval).

Record Env : Type := mkEnv {
  rng_state : Type;
  manual_seed : Z -> rng_state;                                  (* torch.manual_seed *)
  pipe : rng_state -> pycall -> res pyval * rng_state;        (* the pipeline *)
  np_array_float32 : pyval -> res pyval                       (* np.array(_, dtype=np.float32) *)
}.

(** What running a computation from a generator state gives: a value or an
    exception, the generator state left behind, and the events in order. *)
Record run (E : Env) (A : Type) : Type :=
  mkRun { value : res A; final : rng_state E; events : list event }.
Arguments mkRun {E A} value final events.
Arguments value {E A} r.
Arguments final {E A} r.
Arguments events {E A} r.

Definition M (E : Env) (A : Type) : Type := rng_state E -> run E A.

Section Monad.
Context {E : Env}.

Definition ret {A} (a : A) : M E A := fun g => mkRun (Ok a) g [].

Definition bind {A B} (c : M E A) (k : A -> M E B) : M E B :=
  fun g =>
    let r := c g in
    match value r with
    | Ok a => let r' := k a (final r) in
              mkRun (value r') (final r') (events r ++ events r')
    | Raise e => mkRun (Raise e) (final r) (events r)
    end.

Definition lift {A} (r : res A) : M E A := fun g => mkRun r g [].

Definition logging_info (msg : string) : M E unit :=
  fun g => mkRun (Ok tt) g [EvLog "INFO" msg].

Definition logging_error (msg : string) : M E unit :=
  fun g => mkRun (Ok tt) g [EvLog "ERROR" msg].

Definition torch_manual_seed (seed : Z) : M E unit :=
  fun _ => mkRun (Ok tt) (manual_seed E seed) [EvSeed seed].

Definition call_pipe (a : list pyval) (kw : list (string * pyval)) : M E pyval :=
  fun g => let c := mkCall a kw in
           let (r, g') := pipe E g c in
           mkRun r g' [EvPipe c r].

(** [try: body  except Exception as e: handler(e)]. *)
Definition try_except {A} (body : M E A) (handler : exn -> M E A) : M E A :=
  fun g =>
    let r := body g in
    match value r with
    | Ok a => r
    | Raise e => let r' := handler e (final r) in
                 mkRun (value r') (final r') (events r ++ events r')
    end.

End Monad.

Declare Scope py_scope.
Delimit Scope py_scope with py.
Notation "x <- c ;; k" := (bind c (fun x => k))
  (at level 61, c at next level, right associativity) : py_scope.
Notation "c ;;; k" := (bind c (fun _ => k))
  (at level 61, right associativity) : py_scope.

(** The values substituted for the placeholders of the scripts. *)
Record TaskConfiguration : Type := mkConfig {
  model : string;
  revision : string;
  device : string;
  max_new_tokens : Z;
  do_sample : bool;
  temperature : string;
  min_length : Z;
  top_k : pyval;
  multi_label : bool;
  return_top_label_only : bool
}.


(** ** The eight handlers

    Each module embeds the [handle] function of the script of the same name:
    [body] is the [try] block, [handle] the whole function. *)

Module automatic_speech_recognition.
Section Handler.
Context {E : Env}.

Definition body (inputs : Input) : M E Output :=
  (if Djl.size inputs =? 0 then
     logging_info "Handling warmup call - returning empty output" ;;;
     ret Djl.new
   else
     input_str <- lift (Djl.get_as_string inputs "data") ;;
     waveform_list <- lift (Json.loads input_str) ;;
     waveform <- lift (np_array_float32 E waveform_list) ;;
     result <- call_pipe [waveform] [] ;;
     let outputs := Djl.new in
     text <- lift (Json.dumps result) ;;
     ret (Djl.add outputs (VStr text) "data"))%py.

Definition handle (cfg : TaskConfiguration) (inputs : Input) : M E Output :=
  try_except (body inputs)
    (fun e =>
       logging_error ("Error in handle function: " ++ exn_msg e) ;;;
       let outputs := Djl.new in
       text <- lift (Json.dumps (VDict [("error", VStr (exn_msg e))])) ;;
       ret (Djl.add outputs (VStr text) "data"))%py.

End Handler.
End automatic_speech_recognition.

Module chat.
Section Handler.
Context {E : Env}.

Definition body (cfg : TaskConfiguration) (inputs : Input) : M E Output :=
  (if Djl.size inputs =? 0 then
     logging_info "Handling warmup call - returning empty output" ;;;
     ret Djl.new
   else
     input_str <- lift (Djl.get_as_string inputs "data") ;;
     messages <- lift (Json.loads input_str) ;;
     torch_manual_seed 42 ;;;
     let kwargs := [("max_new_tokens", VInt (max_new_tokens cfg));
                    ("do_sample", VBool (do_sample cfg));
                    ("temperature", VFloat (temperature cfg))] in
     result <- call_pipe [messages] kwargs ;;
     let outputs := Djl.new in
     text <- lift (Json.dumps result) ;;
     ret (Djl.add outputs (VStr text) "data"))%py.

Definition handle (cfg : TaskConfiguration) (inputs : Input) : M E Output :=
  try_except (body cfg inputs)
    (fun e =>
       logging_error ("Error in handle function: " ++ exn_msg e) ;;;
       let outputs := Djl.new in
       text <- lift (Json.dumps (VDict [("error", VStr (exn_msg e))])) ;;
       ret (Djl.add outputs (VStr text) "data"))%py.

End Handler.
End chat.

Module question_answering.
Section Handler.
Context {E : Env}.

Definition body (inputs : Input) : M E Output :=
  (if Djl.size inputs =? 0 then
     logging_info "Handling warmup call - returning empty output" ;;;
     ret Djl.new
   else
     input_str <- lift (Djl.get_as_string inputs "data") ;;
     torch_manual_seed 42 ;;;
     input_data <- lift (Json.loads input_str) ;;
     question <- lift (Py.getitem_str input_data "question") ;;
     context <- lift (Py.getitem_str input_data "context") ;;
     result <- call_pipe [] [("question", question); ("context", context)] ;;
     has_answer <- lift (Py.contains "answer" result) ;;
     answer <- lift (if has_answer then Py.getitem_str result "answer" else Ok (VStr "")) ;;
     let outputs := Djl.new in
     ret (Djl.add outputs answer "data"))%py.

Definition handle (cfg : TaskConfiguration) (inputs : Input) : M E Output :=
  try_except (body inputs)
    (fun e =>
       logging_error ("Error in handle function: " ++ exn_msg e) ;;;
       let outputs := Djl.new in
       text <- lift (Json.dumps (VDict [("error", VStr (exn_msg e))])) ;;
       ret (Djl.add outputs (VStr text) "data"))%py.

End Handler.
End question_answering.

Module summarization.
Section Handler.
Context {E : Env}.

(** [result[0]['summary_text'] if result and isinstance(result, list)
    and len(result) > 0 and 'summary_text' in result[0] else ''] *)
Definition summary_of (result : pyval) : res pyval :=
  (t <~ Py.truthy result ;;
   if negb t then Ok (VStr "")
   else if negb (Py.isinstance_list result) then Ok (VStr "")
   else
     n <~ Py.len result ;;
     if negb (n >? 0) then Ok (VStr "")
     else
       first <~ Py.getitem_int result 0 ;;
       has <~ Py.contains "summary_text" first ;;
       if has then
         first' <~ Py.getitem_int result 0 ;;
         Py.getitem_str first' "summary_text"
       else Ok (VStr ""))%res.

Definition body (cfg : TaskConfiguration) (inputs : Input) : M E Output :=
  (if Djl.size inputs =? 0 then
     logging_info "Handling warmup call - returning empty output" ;;;
     ret Djl.new
   else
     input_str <- lift (Djl.get_as_string inputs "data") ;;
     torch_manual_seed 42 ;;;
     let kwargs := [("min_length", VInt (min_length cfg));
                    ("max_new_tokens", VInt (max_new_tokens cfg));
                    ("do_sample", VBool (do_sample cfg));
                    ("temperature", VFloat (temperature cfg))] in
     result <- call_pipe [VStr input_str] kwargs ;;
     summary <- lift (summary_of result) ;;
     let outputs := Djl.new in
     ret (Djl.add outputs summary "data"))%py.

Definition handle (cfg : TaskConfiguration) (inputs : Input) : M E Output :=
  try_except (body cfg inputs)
    (fun e =>
       logging_error ("Error in handle function: " ++ exn_msg e) ;;;
       let outputs := Djl.new in
       text <- lift (Json.dumps (VDict [("error", VStr (exn_msg e))])) ;;
       ret (Djl.add outputs (VStr text) "data"))%py.

End Handler.
End summarization.

Module text_classification.
Section Handler.
Context {E : Env}.

(** [if result and isinstance(result[0], list): result = result[0]] *)
Definition first_if_nested (result : pyval) : res pyval :=
  (t <~ Py.truthy result ;;
   if negb t then Ok result
   else
     first <~ Py.getitem_int result 0 ;;
     if Py.isinstance_list first then Py.getitem_int result 0 else Ok result)%res.

Definition body (inputs : Input) : M E Output :=
  (if Djl.size inputs =? 0 then
     logging_info "Handling warmup call - returning empty output" ;;;
     ret Djl.new
   else
     input_str <- lift (Djl.get_as_string inputs "data") ;;
     torch_manual_seed 42 ;;;
     result <- call_pipe [VStr input_str] [] ;;
     result <- lift (first_if_nested result) ;;
     let outputs := Djl.new in
     text <- lift (Json.dumps result) ;;
     ret (Djl.add outputs (VStr text) "data"))%py.

Definition handle (cfg : TaskConfiguration) (inputs : Input) : M E Output :=
  try_except (body inputs)
    (fun e =>
       logging_error ("Error in handle function: " ++ exn_msg e) ;;;
       let outputs := Djl.new in
       text <- lift (Json.dumps (VDict [("error", VStr (exn_msg e))])) ;;
       ret (Djl.add outputs (VStr text) "data"))%py.

End Handler.
End text_classification.

Module text_to_image.
Section Handler.
Context {E : Env}.

(** [image.save(buf, format="PNG")] followed by [buf.getvalue()]. *)
Definition save_png (image : pyval) : res string :=
  match image with
  | VImage png => Ok png
  | _ => Raise (AttributeError
           ("'" ++ Py.type_name image ++ "' object has no attribute 'save'"))
  end.

Definition body (inputs : Input) : M E Output :=
  (if Djl.size inputs =? 0 then
     logging_info "Handling warmup call - returning empty output" ;;;
     ret Djl.new
   else
     input_str <- lift (Djl.get_as_string inputs "data") ;;
     torch_manual_seed 42 ;;;
     generated <- call_pipe [VStr input_str] [] ;;
     images <- lift (Py.getattr generated "images") ;;
     image <- lift (Py.getitem_int images 0) ;;
     result_bytes <- lift (save_png image) ;;
     let outputs := Djl.new in
     ret (Djl.add outputs (VBytes result_bytes) "data"))%py.

Definition handle (cfg : TaskConfiguration) (inputs : Input) : M E Output :=
  try_except (body inputs)
    (fun e =>
       logging_error ("Error in handle function: " ++ exn_msg e) ;;;
       let outputs := Djl.new in
       text <- lift (Json.dumps (VDict [("error", VStr (exn_msg e))])) ;;
       ret (Djl.add outputs (VStr text) "data"))%py.

End Handler.
End text_to_image.

Module text_to_speech.
Section Handler.
Context {E : Env}.

Definition body (inputs : Input) : M E Output :=
  (if Djl.size inputs =? 0 then
     logging_info "Handling warmup call - returning empty output" ;;;
     ret Djl.new
   else
     input_str <- lift (Djl.get_as_string inputs "data") ;;
     torch_manual_seed 42 ;;;
     result <- call_pipe [VStr input_str] [] ;;
     audio <- lift (Py.getitem_str result "audio") ;;
     samples <- lift (Np.squeeze_tolist audio) ;;
     result <- lift (Py.setitem_str result "audio" samples) ;;
     let outputs := Djl.new in
     text <- lift (Json.dumps result) ;;
     ret (Djl.add outputs (VStr text) "data"))%py.

Definition handle (cfg : TaskConfiguration) (inputs : Input) : M E Output :=
  try_except (body inputs)
    (fun e =>
       logging_error ("Error in handle function: " ++ exn_msg e) ;;;
       let outputs := Djl.new in
       text <- lift (Json.dumps (VDict [("error", VStr (exn_msg e))])) ;;
       ret (Djl.add outputs (VStr text) "data"))%py.

End Handler.
End text_to_speech.

Module zero_shot_classification.
Section Handler.
Context {E : Env}.

Definition no_label : exn :=
  ValueError "At least one candidate label required for zero-shot".

Definition body (cfg : TaskConfiguration) (inputs : Input) : M E Output :=
  (if Djl.size inputs =? 0 then
     logging_info "Handling warmup call - returning empty output" ;;;
     ret Djl.new
   else
     input_str <- lift (Djl.get_as_string inputs "data") ;;
     input_data <- lift (Json.loads input_str) ;;
     text <- lift (Py.getitem_int input_data 0) ;;
     candidate_labels <- lift (Py.slice_from_1 input_data) ;;
     some_label <- lift (Py.truthy candidate_labels) ;;
     (if negb some_label then lift (Raise no_label) else ret tt) ;;;
     torch_manual_seed 42 ;;;
     let kwargs := [("multi_label", VBool (multi_label cfg))] in
     result <- call_pipe [text] (("candidate_labels", candidate_labels) :: kwargs) ;;
     let outputs := Djl.new in
     if return_top_label_only cfg then
       labels <- lift (Py.getitem_str result "labels") ;;
       top_label <- lift (Py.getitem_int labels 0) ;;
       ret (Djl.add outputs top_label "data")
     else
       dumped <- lift (Json.dumps result) ;;
       ret (Djl.add outputs (VStr dumped) "data"))%py.

Definition handle (cfg : TaskConfiguration) (inputs : Input) : M E Output :=
  try_except (body cfg inputs)
    (fun e =>
       logging_error ("Error in handle function: " ++ exn_msg e) ;;;
       let outputs := Djl.new in
       text <- lift (Json.dumps (VDict [("error", VStr (exn_msg e))])) ;;
       ret (Djl.add outputs (VStr text) "data"))%py.

End Handler.
End zero_shot_classification.

(** ** The dispatcher: one process serves one task *)

Inductive task : Type :=
| AutomaticSpeechRecognition
| Chat
| QuestionAnswering
| Summarization
| TextClassification
| TextToImage
| TextToSpeech
| ZeroShotClassification.

Definition handle_of {E : Env} (t : task) : TaskConfiguration -> Input -> M E Output :=
  match t with
  | AutomaticSpeechRecognition => automatic_speech_recognition.handle
  | Chat => chat.handle
  | QuestionAnswering => question_answering.handle
  | Summarization => summarization.handle
  | TextClassification => text_classification.handle
  | TextToImage => text_to_image.handle
  | TextToSpeech => text_to_speech.handle
  | ZeroShotClassification => zero_shot_classification.handle
  end.

(** The encode stage of each script: the statements between the pipeline
    call and [return outputs], as a function of the pipeline result.  It
    gives the value that is added as the ["data"] part, or raises. *)
Definition encode_stage (t : task) (cfg : TaskConfiguration) (result : pyval)
  : res pyval :=
  (match t with
   | AutomaticSpeechRecognition | Chat =>
       text <~ Json.dumps result ;;
       Ok (VStr text)
   | QuestionAnswering =>
       has_answer <~ Py.contains "answer" result ;;
       if has_answer then Py.getitem_str result "answer" else Ok (VStr "")
   | Summarization =>
       summarization.summary_of result
   | TextClassification =>
       result <~ text_classification.first_if_nested result ;;
       text <~ Json.dumps result ;;
       Ok (VStr text)
   | TextToImage =>
       images <~ Py.getattr result "images" ;;
       image <~ Py.getitem_int images 0 ;;
       result_bytes <~ text_to_image.save_png image ;;
       Ok (VBytes result_bytes)
   | TextToSpeech =>
       audio <~ Py.getitem_str result "audio" ;;
       samples <~ Np.squeeze_tolist audio ;;
       result <~ Py.setitem_str result "audio" samples ;;
       text <~ Json.dumps result ;;
       Ok (VStr text)
   | ZeroShotClassification =>
       if return_top_label_only cfg then
         labels <~ Py.getitem_str result "labels" ;;
         Py.getitem_int labels 0
       else
         dumped <~ Json.dumps result ;;
         Ok (VStr dumped)
   end)%res.

(** Test doubles for the pipeline.  The generator state counts the calls
    since the last seed.  [stub answer] answers every call with a fixed
    outcome; [sampler] answers with the generator state it was called in. *)
Definition stub (answer : res pyval) : Env :=
  mkEnv nat (fun _ => 0%nat) (fun g _ => (answer, S g))
        (fun v => Ok (VArray [0%nat] [])).

Definition sampler : Env :=
  mkEnv nat (fun _ => 0%nat) (fun g _ => (Ok (VInt (Z.of_nat g)), S g))
        (fun v => Ok (VArray [0%nat] [])).

Definition cfg0 : TaskConfiguration :=
  mkConfig "m" "main" "cpu" 16 false "0.700000" 5 (VInt 1) false true.

(** A JSON text written with single quotes in place of the double ones. *)
Fixpoint jq (s : string) : string :=
  match s with
  | EmptyString => EmptyString
  | String c s' => String (if Ascii.eqb c "'" then "034" else c)%char (jq s')
  end.

(** The same configuration, asking for the full zero-shot result. *)
Definition cfg1 : TaskConfiguration :=
  mkConfig "m" "main" "cpu" 16 false "0.700000" 5 (VInt 1) false false.

Definition req (s : string) : Input := mkInput [("data", Text s)].

(** The sampling parameters the chat script passes, under [cfg0]. *)
Definition chat_kwargs0 : list (string * pyval) :=
  [("max_new_tokens", VInt 16); ("do_sample", VBool false);
   ("temperature", VFloat "0.700000")].

(** A two by two array of samples, as nested lists and as an [ndarray]. *)
Definition samples_2x2 : pyval :=
  VList [VList [VFloat "0.1"; VFloat "0.2"]; VList [VFloat "0.3"; VFloat "0.4"]].

Definition array_2x2 : pyval :=
  VArray [2; 2]%nat [VFloat "0.1"; VFloat "0.2"; VFloat "0.3"; VFloat "0.4"].

Definition samples_flat : pyval :=
  VList [VFloat "0.1"; VFloat "0.2"; VFloat "0.3"; VFloat "0.4"].

(** The scores of a text classification, and their JSON text. *)
Definition scores_AB : list pyval :=
  [VDict [("label", VStr "A"); ("score", VFloat "0.9")];
   VDict [("label", VStr "B"); ("score", VFloat "0.1")]].

Definition scores_AB_text : string :=
  (jq "[{'label': 'A', 'score': 0.9}, {'label': 'B', 'score': 0.1}]").

(** The zero-shot result of the example. *)
Definition labels_result : pyval :=
  VDict [("labels", VList [VStr "label2"; VStr "label1"]);
         ("scores", VList [VFloat "0.7"; VFloat "0.3"])].

(** A request each script decodes, and a pipeline result its encode stage
    raises on. *)
Definition request_for (t : task) : Input :=
  match t with
  | AutomaticSpeechRecognition => req "[0.5]"
  | Chat => req "[]"
  | QuestionAnswering => req (jq "{'question': 'q', 'context': 'c'}")
  | ZeroShotClassification => req (jq "['text','label1']")
  | _ => req "hello"
  end.

Definition unencodable (t : task) : pyval :=
  match t with
  | QuestionAnswering => VNone
  | _ => VArray [2%nat] [VInt 0; VInt 1]
  end.

(** ** Reading a response *)

(** The text [json.dumps({"error": msg})]. *)
Definition error_text (msg : string) : string :=
  "{" ++ Json.quote "error" ++ ": " ++ Json.quote msg ++ "}".

(** The response of the [except] clause for an exception whose [str] is [msg]. *)
Definition error_output (msg : string) : Output :=
  mkOutput [("data", VStr (error_text msg))].

(** The one part of a response that carries a payload, when it has exactly
    one and it is named ["data"]. *)
Definition data_of (o : Output) : option pyval :=
  match parts o with
  | [(name, v)] => if String.eqb name "data" then Some v else None
  | _ => None
  end.

(** The error a response reports: its ["data"] part is a text that parses as
    a JSON object whose key ["error"] holds a string. *)
Definition error_of (o : Output) : option string :=
  match data_of o with
  | Some (VStr text) =>
      match Json.loads text with
      | Ok (VDict d) =>
          match Py.lookup "error" d with
          | Some (VStr msg) => Some msg
          | _ => None
          end
      | _ => None
      end
  | _ => None
  end.

(** An envelope is well formed when it is empty (the answer to a warm-up) or
    holds exactly one part, named ["data"]. *)
Definition well_formed (o : Output) : bool :=
  match parts o with
  | [] => true
  | [(name, _)] => String.eqb name "data"
  | _ => false
  end.

Definition is_pipe (ev : event) : bool :=
  match ev with EvPipe _ _ => true | _ => false end.

(** The pipeline invocations among some events. *)
Definition pipe_calls (evs : list event) : list event := filter is_pipe evs.

(** Every pipeline invocation among [evs] comes right after [EvSeed 42]. *)
Fixpoint seeded_calls (prev : option event) (evs : list event) : bool :=
  match evs with
  | [] => true
  | ev :: rest =>
      (match ev, prev with
       | EvPipe _ _, Some (EvSeed 42) => true
       | EvPipe _ _, _ => false
       | _, _ => true
       end) && seeded_calls (Some ev) rest
  end.

Definition is_seed (ev : event) : bool :=
  match ev with EvSeed _ => true | _ => false end.

(** The calls of [torch.manual_seed] among some events. *)
Definition seed_events (evs : list event) : list event := filter is_seed evs.

(** The scripts that call [torch.manual_seed(42)]: all but the speech
    recognition one, which does not import [torch]. *)
Definition seeds_before_pipeline (t : task) : bool :=
  match t with
  | AutomaticSpeechRecognition => false
  | _ => true
  end.

Definition is_log (ev : event) : bool :=
  match ev with EvLog _ _ => true | _ => false end.

(** What a run wrote to the log. *)
Definition log_events (evs : list event) : list event := filter is_log evs.

(** The scripts that read their ["data"] part with [json.loads]. *)
Definition decodes_json (t : task) : bool :=
  match t with
  | AutomaticSpeechRecognition | Chat | QuestionAnswering | ZeroShotClassification => true
  | _ => false
  end.

(** The scripts that hand their ["data"] part to the pipeline as it is. *)
Definition takes_raw_text (t : task) : bool :=
  match t with
  | Summarization | TextClassification | TextToImage | TextToSpeech => true
  | _ => false
  end.

(** The keyword arguments of the one pipeline call of a raw-text script. *)
Definition raw_text_kwargs (t : task) (cfg : TaskConfiguration) : list (string * pyval) :=
  match t with
  | Summarization =>
      [("min_length", VInt (min_length cfg));
       ("max_new_tokens", VInt (max_new_tokens cfg));
       ("do_sample", VBool (do_sample cfg));
       ("temperature", VFloat (temperature cfg))]
  | _ => []
  end.

(** The JSON values that are neither an array nor a string. *)
Definition json_scalar_or_object (v : pyval) : bool :=
  match v with
  | VNone | VBool _ | VInt _ | VFloat _ | VDict _ => true
  | _ => false
  end.

(** The scripts whose response is the JSON text of the pipeline result as it
    is, whatever the configuration. *)
Definition serialises_result (t : task) : bool :=
  match t with
  | AutomaticSpeechRecognition | Chat => true
  | _ => false
  end.

(** A test double whose conversion to a 32-bit array fails. *)
Definition deaf : Env :=
  mkEnv nat (fun _ => 0%nat) (fun g _ => (Ok VNone, S g))
        (fun v => Raise (ValueError "could not convert string to float: 'a'")).

(** A scan that succeeds leaves less input than it was given, and a scan
    that stops does not stop for lack of fuel. *)
Definition consumed {A} (s : string) (r : Json.pres A) : Prop :=
  match r with
  | Json.POk _ rest => (String.length rest < String.length s)%nat
  | Json.PFail _ _ => True
  | Json.PErr e => e <> Json.recursion_error
  end.

Section RunShapes.
Context {E : Env}.

(** The events [evs] followed by the run [r]. *)
Definition prepend {A} (evs : list event) (r : run E A) : run E A :=
  mkRun (value r) (final r) (evs ++ events r).

(** What the [except] clause makes of the run of a [try] block. *)
Definition caught (r : run E Output) : run E Output :=
  match value r with
  | Ok _ => r
  | Raise e =>
      mkRun (Ok (error_output (exn_msg e))) (final r)
            (events r ++ [EvLog "ERROR" ("Error in handle function: " ++ exn_msg e)])
  end.

End RunShapes.

(** ** Facts about the JSON codec *)

Lemma append_assoc (a b c : string) : ((a ++ b) ++ c = a ++ (b ++ c))%string.
Proof. induction a as [|x a IH]; simpl; [reflexivity | now rewrite IH]. Qed.

Lemma scan_escape_char (c x : ascii) (start : nat) (t : string) (acc : list ascii) :
  Json.scan_string start (Json.escape_char c ++ String x t) acc
  = Json.scan_string start (String x t) (c :: acc).
Proof.
  destruct c as [b0 b1 b2 b3 b4 b5 b6 b7];
    destruct b0, b1, b2, b3, b4, b5, b6, b7; reflexivity.
Qed.

Lemma append_nonempty (a : string) (x : ascii) (t : string) :
  exists y u, (a ++ String x t)%string = String y u.
Proof. destruct a as [|y a]; simpl; eauto. Qed.

Lemma scan_escape (m : string) : forall (start : nat) (rest : string) (acc : list ascii),
  Json.scan_string start (Json.escape m ++ String "034" rest) acc
  = Json.POk (Json.string_rev_app acc m) rest.
Proof.
  induction m as [|c m IH]; intros start rest acc.
  - simpl. reflexivity.
  - simpl Json.escape. rewrite append_assoc.
    destruct (append_nonempty (Json.escape m) "034" rest) as [y [u Hyu]].
    rewrite Hyu, scan_escape_char, <- Hyu, IH.
    reflexivity.
Qed.

Lemma dumps_error (msg : string) :
  Json.dumps (VDict [("error", VStr msg)]) = Ok (error_text msg).
Proof. reflexivity. Qed.

Lemma scan_once_error_text (msg : string) (k : nat) :
  Json.scan_once (S (S (S k))) (error_text msg)
  = Json.POk (VDict [("error", VStr msg)]) EmptyString.
Proof.
  unfold error_text, Json.quote.
  change (Json.escape "error") with "error".
  cbn -[Json.escape String.length].
  rewrite append_assoc. cbn [String.append].
  rewrite scan_escape. reflexivity.
Qed.

Lemma loads_error_text (msg : string) :
  Json.loads (error_text msg) = Ok (VDict [("error", VStr msg)]).
Proof.
  unfold Json.loads.
  assert (Hfuel : exists k, (2 * String.length (error_text msg) + 2 = S (S (S k)))%nat).
  { assert (Hlen : (1 <= String.length (error_text msg))%nat)
      by (unfold error_text; simpl; lia).
    exists (2 * String.length (error_text msg) - 1)%nat. lia. }
  destruct Hfuel as [k ->].
  replace (Json.skip_ws (error_text msg)) with (error_text msg) by reflexivity.
  rewrite scan_once_error_text. reflexivity.
Qed.

Lemma error_of_error_output (msg : string) : error_of (error_output msg) = Some msg.
Proof.
  unfold error_of, error_output, data_of. cbn -[Json.loads error_text].
  rewrite loads_error_text. reflexivity.
Qed.

(** *** The fuel of the decoder is never exhausted *)

Lemma skip_ws_length (s : string) :
  (String.length (Json.skip_ws s) <= String.length s)%nat.
Proof.
  induction s as [|c s IH]; simpl; [lia|].
  destruct (Json.is_ws c); simpl; lia.
Qed.

Lemma scan_string_consumed (n : nat) :
  forall (s : string) (start : nat) (acc : list ascii),
    (String.length s <= n)%nat -> consumed s (Json.scan_string start s acc).
Proof.
  induction n as [|n IH]; intros s start acc Hlen.
  - destruct s; [exact I | simpl in Hlen; lia].
  - destruct s as [|c s']; [exact I|].
    simpl in Hlen. cbn [Json.scan_string].
    destruct (Ascii.eqb c "034"); [simpl; lia|].
    destruct (Ascii.eqb c "\").
    + destruct s' as [|e s'']; [exact I|]. simpl in Hlen.
      destruct (Ascii.eqb e "u").
      * destruct s'' as [|h1 [|h2 [|h3 [|h4 [|x rest]]]]]; try exact I.
        destruct (Json.hex4 h1 h2 h3 h4); [|exact I].
        destruct (_ <? 256)%nat; [|discriminate].
        simpl in Hlen.
        specialize (IH (String x rest) start (ascii_of_nat n0 :: acc)).
        destruct (Json.scan_string start (String x rest) (ascii_of_nat n0 :: acc));
          simpl in *; try exact I; [|apply IH; lia].
        assert (String.length rest0 < S (String.length rest))%nat by (apply IH; lia).
        lia.
      * destruct (Json.unescape e); [|exact I].
        specialize (IH s'' start (a :: acc)).
        destruct (Json.scan_string start s'' (a :: acc));
          simpl in *; try exact I; [|apply IH; lia].
        assert (String.length rest < String.length s'')%nat by (apply IH; lia).
        lia.
    + destruct (Json.is_control c); [exact I|].
      specialize (IH s' start (c :: acc)).
      destruct (Json.scan_string start s' (c :: acc));
        simpl in *; try exact I; [|apply IH; lia].
      assert (String.length rest < String.length s')%nat by (apply IH; lia).
      lia.
Qed.

Lemma strip_prefix_length (p : string) :
  forall s rest, Json.strip_prefix p s = Some rest ->
                 (String.length rest + String.length p = String.length s)%nat.
Proof.
  induction p as [|a p IH]; intros s rest H; simpl in H.
  - injection H as <-. simpl. lia.
  - destruct s as [|b s]; [discriminate|].
    destruct (Ascii.eqb a b); [|discriminate].
    apply IH in H. simpl. lia.
Qed.

Lemma span_digits_length (s : string) :
  (String.length (fst (Json.span_digits s)) + String.length (snd (Json.span_digits s))
   = String.length s)%nat.
Proof.
  induction s as [|c s IH]; simpl; [reflexivity|].
  destruct (Json.is_digit c); simpl; [|reflexivity].
  destruct (Json.span_digits s); simpl in *. lia.
Qed.

Lemma scan_int_length (s ip r : string) :
  Json.scan_int s = Some (ip, r) -> (String.length r < String.length s)%nat.
Proof.
  unfold Json.scan_int. destruct s as [|c s]; [discriminate|].
  destruct (Ascii.eqb c "0").
  - intros H. injection H as _ <-. simpl. lia.
  - destruct (Json.is_digit c); [|discriminate].
    pose proof (span_digits_length s) as Hs.
    destruct (Json.span_digits s) as [d r']. intros H. injection H as _ <-.
    simpl in *. lia.
Qed.

Lemma scan_frac_length (s : string) :
  (String.length (snd (Json.scan_frac s)) <= String.length s)%nat.
Proof.
  unfold Json.scan_frac. destruct s as [|c s]; simpl; [lia|].
  destruct (Ascii.eqb c "."); simpl; [|lia].
  pose proof (span_digits_length s) as Hs.
  destruct (Json.span_digits s) as [[|d0 d] r]; simpl in *; lia.
Qed.

Lemma scan_exp_length (s : string) :
  (String.length (snd (Json.scan_exp s)) <= String.length s)%nat.
Proof.
  unfold Json.scan_exp. destruct s as [|e s]; simpl; [lia|].
  destruct (Ascii.eqb e "e" || Ascii.eqb e "E")%bool; simpl; [|lia].
  destruct s as [|g t].
  - simpl. lia.
  - destruct (Ascii.eqb g "+" || Ascii.eqb g "-")%bool.
    + pose proof (span_digits_length t) as Hs.
      destruct (Json.span_digits t) as [[|d0 d] r]; simpl in *; lia.
    + pose proof (span_digits_length (String g t)) as Hs.
      destruct (Json.span_digits (String g t)) as [[|d0 d] r]; simpl in *; lia.
Qed.

Lemma scan_number_length (s : string) (v : pyval) (rest : string) :
  Json.scan_number s = Some (v, rest) -> (String.length rest < String.length s)%nat.
Proof.
  unfold Json.scan_number.
  assert (Hbody : forall body, (String.length body <= String.length s)%nat ->
    forall neg,
      match Json.scan_int body with
      | None => None
      | Some (ip, r1) =>
          let (fp, r2) := Json.scan_frac r1 in
          let (ep, r3) := Json.scan_exp r2 in
          match fp, ep with
          | EmptyString, EmptyString =>
              let n := Json.digits_value ip 0 in
              Some (VInt (if neg : bool then - n else n), r3)
          | _, _ => Some (VFloat ((if neg then "-" else "") ++ ip ++ fp ++ ep), r3)
          end
      end = Some (v, rest) -> (String.length rest < String.length s)%nat).
  { intros body Hb neg.
    destruct (Json.scan_int body) as [[ip r1]|] eqn:Hint; [|discriminate].
    apply scan_int_length in Hint.
    pose proof (scan_frac_length r1) as Hf.
    destruct (Json.scan_frac r1) as [fp r2].
    pose proof (scan_exp_length r2) as He.
    destruct (Json.scan_exp r2) as [ep r3]. simpl in Hf, He.
    destruct fp, ep; intros H; injection H as _ <-; lia. }
  destruct s as [|c s'].
  - exact (Hbody EmptyString (le_n _) false).
  - destruct (Ascii.eqb c "-").
    + refine (Hbody s' _ true). simpl. lia.
    + refine (Hbody (String c s') _ false). lia.
Qed.

Lemma scan_atom_consumed (s : string) : consumed s (Json.scan_atom s).
Proof.
  unfold Json.scan_atom, consumed.
  repeat match goal with
         | |- context [Json.strip_prefix ?p s] =>
             let H := fresh "H" in
             destruct (Json.strip_prefix p s) eqn:H;
             [apply strip_prefix_length in H; cbn [String.length] in H; lia
             |clear H]
         | |- context [Json.scan_number s] =>
             let H := fresh "H" in
             destruct (Json.scan_number s) as [[? ?]|] eqn:H;
             [apply scan_number_length in H; lia | clear H]
         end.
  exact I.
Qed.

Lemma scan_fuel (fuel : nat) :
  (forall s, (2 * String.length s + 1 <= fuel)%nat -> consumed s (Json.scan_once fuel s))
  /\ (forall s acc, (2 * String.length s + 2 <= fuel)%nat ->
                    consumed s (Json.scan_items fuel s acc))
  /\ (forall s acc, (2 * String.length s + 2 <= fuel)%nat ->
                    consumed s (Json.scan_pairs fuel s acc)).
Proof.
  induction fuel as [|fuel [IHonce [IHitems IHpairs]]].
  - repeat split; intros; lia.
  - split; [|split].
    + intros s Hfuel. destruct s as [|c s']; [exact I|].
      simpl in Hfuel. cbn [Json.scan_once].
      destruct (Ascii.eqb c "034").
      { pose proof (scan_string_consumed _ s' (String.length (String c s')) []
                      (le_n _)) as Hs.
        destruct (Json.scan_string _ s' []); simpl in *; try exact I; [lia|].
        intros ->. apply Hs. reflexivity. }
      destruct (Ascii.eqb c "{").
      { pose proof (skip_ws_length s') as Hws.
        destruct (Json.skip_ws s') as [|c' rest] eqn:Ht; [exact I|].
        destruct (Ascii.eqb c' "}"); [simpl in *; lia|].
        specialize (IHpairs (String c' rest) []).
        destruct (Json.scan_pairs fuel (String c' rest) []);
          simpl in *; try exact I; [|apply IHpairs; lia].
        assert (String.length rest0 < S (String.length rest))%nat
          by (apply IHpairs; lia).
        lia. }
      destruct (Ascii.eqb c "[").
      { pose proof (skip_ws_length s') as Hws.
        destruct (Json.skip_ws s') as [|c' rest] eqn:Ht.
        - specialize (IHitems EmptyString []).
          destruct (Json.scan_items fuel EmptyString []);
            simpl in *; try exact I; [|apply IHitems; lia].
          assert (String.length rest < 0)%nat by (apply IHitems; lia). lia.
        - destruct (Ascii.eqb c' "]"); [simpl in *; lia|].
          specialize (IHitems (String c' rest) []).
          destruct (Json.scan_items fuel (String c' rest) []);
            simpl in *; try exact I; [|apply IHitems; lia].
          assert (String.length rest0 < S (String.length rest))%nat
            by (apply IHitems; lia).
          lia. }
      apply scan_atom_consumed.
    + intros s acc Hfuel. cbn [Json.scan_items].
      specialize (IHonce s).
      destruct (Json.scan_once fuel s) as [v rest| |e];
        simpl in IHonce |- *; try exact I; [|apply IHonce; lia].
      assert (Hrest : (String.length rest < String.length s)%nat)
        by (apply IHonce; lia).
      pose proof (skip_ws_length rest) as Hws.
      destruct (Json.skip_ws rest) as [|c rest'] eqn:Ht; [exact I|].
      destruct (Ascii.eqb c "]"); [simpl in *; lia|].
      destruct (Ascii.eqb c ","); [|exact I].
      pose proof (skip_ws_length rest') as Hws'.
      specialize (IHitems (Json.skip_ws rest') (v :: acc)).
      destruct (Json.scan_items fuel (Json.skip_ws rest') (v :: acc));
        simpl in *; try exact I; [|apply IHitems; lia].
      assert (String.length rest0 < String.length (Json.skip_ws rest'))%nat
        by (apply IHitems; lia).
      lia.
    + intros s acc Hfuel. cbn [Json.scan_pairs].
      destruct s as [|q s']; [exact I|].
      destruct (Ascii.eqb q "034"); [|exact I].
      pose proof (scan_string_consumed _ s' (String.length (String q s')) []
                    (le_n _)) as Hs.
      destruct (Json.scan_string _ s' []) as [k rest| |e];
        simpl in Hs |- *; try exact I; [|intros ->; apply Hs; reflexivity].
      pose proof (skip_ws_length rest) as Hws.
      destruct (Json.skip_ws rest) as [|c rest'] eqn:Ht; [exact I|].
      destruct (Ascii.eqb c ":"); [|exact I].
      pose proof (skip_ws_length rest') as Hws'.
      specialize (IHonce (Json.skip_ws rest')).
      destruct (Json.scan_once fuel (Json.skip_ws rest')) as [v rest''| |e];
        simpl in IHonce, Hfuel, Hws |- *; try exact I; [|apply IHonce; lia].
      assert (Hv : (String.length rest'' < String.length (Json.skip_ws rest'))%nat)
        by (apply IHonce; lia).
      pose proof (skip_ws_length rest'') as Hws''.
      destruct (Json.skip_ws rest'') as [|c' r] eqn:Ht'; [exact I|].
      destruct (Ascii.eqb c' "}"); [simpl in *; lia|].
      destruct (Ascii.eqb c' ","); [|exact I].
      pose proof (skip_ws_length r) as Hwr.
      specialize (IHpairs (Json.skip_ws r) (Py.dict_set k v acc)).
      destruct (Json.scan_pairs fuel (Json.skip_ws r) (Py.dict_set k v acc));
        simpl in *; try exact I; [|apply IHpairs; lia].
      assert (String.length rest0 < String.length (Json.skip_ws r))%nat
        by (apply IHpairs; lia).
      lia.
Qed.

Lemma decode_error_differs (msg doc : string) (pos : nat) :
  Json.JSONDecodeError msg doc pos <> Json.recursion_error.
Proof.
  unfold Json.JSONDecodeError. destruct (Json.line_col _ 1 1). discriminate.
Qed.

(** [Json.loads] never fails for lack of fuel. *)
Lemma loads_fuel (doc : string) : Json.loads doc <> Raise Json.recursion_error.
Proof.
  unfold Json.loads.
  pose proof (skip_ws_length doc) as Hws.
  pose proof (proj1 (scan_fuel (2 * String.length doc + 2)) (Json.skip_ws doc)) as H.
  destruct (Json.scan_once _ (Json.skip_ws doc)) as [v rest| |e]; simpl in H.
  - destruct (Json.skip_ws rest); [discriminate|].
    intros Heq. injection Heq as Heq. now apply decode_error_differs in Heq.
  - intros Heq. injection Heq as Heq. now apply decode_error_differs in Heq.
  - intros Heq. injection Heq as ->. apply H; [lia | reflexivity].
Qed.

(** ** Running a handler *)

Arguments Json.loads : simpl never.
Arguments Json.dumps : simpl never.
Arguments Py.getitem_str : simpl never.
Arguments Py.getitem_int : simpl never.
Arguments Py.contains : simpl never.
Arguments Py.truthy : simpl never.
Arguments Py.slice_from_1 : simpl never.
Arguments Py.getattr : simpl never.
Arguments Py.setitem_str : simpl never.
Arguments Np.squeeze_tolist : simpl never.
Arguments Djl.get_as_string : simpl never.
Arguments error_text : simpl never.

Section Runs.
Context {E : Env}.

Lemma run_bind_lift {A B} (r : res A) (k : A -> M E B) (g : rng_state E) :
  bind (lift r) k g
  = match r with
    | Ok a => k a g
    | Raise e => mkRun (Raise e) g []
    end.
Proof.
  unfold bind, lift. destruct r as [a|e]; cbn; [destruct (k a g)|]; reflexivity.
Qed.

Lemma run_bind_ret {A B} (a : A) (k : A -> M E B) (g : rng_state E) :
  bind (ret a) k g = k a g.
Proof. unfold bind, ret. cbn. destruct (k a g); reflexivity. Qed.

Lemma run_bind_info {B} (m : string) (k : unit -> M E B) (g : rng_state E) :
  bind (logging_info m) k g = prepend [EvLog "INFO" m] (k tt g).
Proof. reflexivity. Qed.

Lemma run_bind_seed {B} (z : Z) (k : unit -> M E B) (g : rng_state E) :
  bind (torch_manual_seed z) k g = prepend [EvSeed z] (k tt (manual_seed E z)).
Proof. reflexivity. Qed.

Lemma run_bind_pipe {B} (a : list pyval) (kw : list (string * pyval))
      (k : pyval -> M E B) (g : rng_state E) :
  bind (call_pipe a kw) k g
  = match pipe E g (mkCall a kw) with
    | (Ok v, g') => prepend [EvPipe (mkCall a kw) (Ok v)] (k v g')
    | (Raise e, g') => mkRun (Raise e) g' [EvPipe (mkCall a kw) (Raise e)]
    end.
Proof.
  unfold bind, call_pipe. destruct (pipe E g (mkCall a kw)) as [[v|e] g']; reflexivity.
Qed.

Lemma run_try_except (body : M E Output) (g : rng_state E) :
  try_except body
    (fun e =>
       logging_error ("Error in handle function: " ++ exn_msg e) ;;;
       let outputs := Djl.new in
       text <- lift (Json.dumps (VDict [("error", VStr (exn_msg e))])) ;;
       ret (Djl.add outputs (VStr text) "data"))%py g
  = caught (body g).
Proof.
  unfold try_except, caught. destruct (value (body g)); reflexivity.
Qed.

End Runs.

Ltac unfold_handlers :=
  unfold handle_of,
    automatic_speech_recognition.handle, automatic_speech_recognition.body,
    chat.handle, chat.body,
    question_answering.handle, question_answering.body,
    summarization.handle, summarization.body,
    text_classification.handle, text_classification.body,
    text_to_image.handle, text_to_image.body,
    text_to_speech.handle, text_to_speech.body,
    zero_shot_classification.handle, zero_shot_classification.body;
  rewrite !run_try_except.

(** Run a [try] block statement by statement: split on the outcome of the
    statement at hand, then rewrite the next bind. *)
Ltac run_split :=
  match goal with
  | |- context [match ?x with _ => _ end] =>
      lazymatch x with
      | context [match _ with _ => _ end] => fail
      | _ => destruct x eqn:?
      end
  end.

Ltac run_bind :=
  first
    [ rewrite run_bind_lift
    | rewrite run_bind_ret
    | rewrite run_bind_info
    | rewrite run_bind_seed
    | rewrite run_bind_pipe ].

Ltac run_all :=
  repeat first [ run_bind | run_split ];
  unfold ret, caught, prepend; cbn [value final events app].

(** Run a [try] block whose outcomes are known from the hypotheses. *)
Ltac run_known :=
  repeat first
    [ run_bind
    | match goal with
      | H : ?x = _ |- context [match ?x with _ => _ end] => rewrite H
      | H : ?x = _ |- context [if ?x then _ else _] => rewrite H
      end
    | progress cbv beta iota
    | progress cbn [negb] ];
  unfold ret, caught, prepend; cbn [value final events app].

(** Case analysis on a membership in an explicit list of events. *)
Ltac in_cases H :=
  cbn [In] in H;
  repeat match type of H with
         | _ \/ _ => destruct H as [H|H]
         | False => contradiction
         end.

Lemma get_as_string_size (inputs : Input) (key s : string) :
  Djl.get_as_string inputs key = Ok s -> (Djl.size inputs =? 0) = false.
Proof.
  unfold Djl.get_as_string, Djl.size. destruct (content inputs) as [|p l].
  - discriminate.
  - intros _. apply Z.eqb_neq. cbn [length]. lia.
Qed.

Section Claims.
Context {E : Env}.

(** C1 (warm-up).  For every task and every configuration, a request whose
    content size is 0 is answered with the empty envelope (no named part);
    the pipeline is not invoked and the generator state is left as it was. *)
Theorem warmup_returns_empty_envelope (t : task) (cfg : TaskConfiguration)
        (inputs : Input) (g : rng_state E) :
  Djl.size inputs = 0 ->
  value (handle_of t cfg inputs g) = Ok (mkOutput [])
  /\ pipe_calls (events (handle_of t cfg inputs g)) = []
  /\ final (handle_of t cfg inputs g) = g.
Proof.
  intros Hsize. apply Z.eqb_eq in Hsize.
  destruct t; unfold_handlers; rewrite Hsize; run_all; repeat split.
Qed.

(** C2, amended (pipeline failure).  For every task, when the pipeline call
    raises an exception [e], [handle] returns an envelope whose ["data"] part
    parses as a JSON object in which ["error"] holds the string [str(e)]
    (which is empty when the exception carries no message). *)
Theorem pipeline_error_is_reported (t : task) (cfg : TaskConfiguration)
        (inputs : Input) (g : rng_state E) (c : pycall) (e : exn) :
  In (EvPipe c (Raise e)) (events (handle_of t cfg inputs g)) ->
  exists out,
    value (handle_of t cfg inputs g) = Ok out
    /\ data_of out = Some (VStr (error_text (exn_msg e)))
    /\ error_of out = Some (exn_msg e).
Proof.
  intros Hin. exists (error_output (exn_msg e)).
  split; [|split; [reflexivity | apply error_of_error_output]].
  revert Hin.
  destruct t; unfold_handlers; run_all; intros Hin; in_cases Hin;
    try discriminate Hin; inversion Hin; subst; reflexivity.
Qed.

(** C4, amended (zero-shot, no candidate label).  When the ["data"] part is a
    JSON array with fewer than two elements the response is an ErrorPayload
    and the pipeline is not invoked (nor is the generator seeded).  For a
    one-element array the message is the validation message of the script;
    for the empty array it is the message of the [IndexError] raised by
    [input_data[0]], which runs before the validation. *)
Theorem zero_shot_too_few_elements (cfg : TaskConfiguration) (inputs : Input)
        (s : string) (l : list pyval) (g : rng_state E) :
  Djl.get_as_string inputs "data" = Ok s ->
  Json.loads s = Ok (VList l) ->
  (length l < 2)%nat ->
  let r := zero_shot_classification.handle cfg inputs g in
  exists out,
    value r = Ok out
    /\ error_of out
       = Some (match l with
               | [] => "list index out of range"
               | _ => "At least one candidate label required for zero-shot"
               end)
    /\ pipe_calls (events r) = []
    /\ final r = g.
Proof.
  intros Hs Hl Hlen r. subst r.
  pose proof (get_as_string_size _ _ _ Hs) as Hsize.
  destruct l as [|x [|y l]]; [| |cbn in Hlen; lia].
  - assert (H0 : Py.getitem_int (VList []) 0 = Raise (IndexError "list index out of range"))
      by reflexivity.
    unfold_handlers. run_known.
    eexists; split; [reflexivity|]. split; [apply error_of_error_output|]. now split.
  - assert (H0 : Py.getitem_int (VList [x]) 0 = Ok x) by reflexivity.
    assert (H1 : Py.slice_from_1 (VList [x]) = Ok (VList [])) by reflexivity.
    assert (H2 : Py.truthy (VList []) = Ok false) by reflexivity.
    unfold_handlers. run_known.
    eexists; split; [reflexivity|]. split; [apply error_of_error_output|]. now split.
Qed.

(** C5 (zero-shot, top label).  After a successful invocation on an array
    holding a text and at least one candidate label: with
    [return_top_label_only] true the ["data"] part is the first element of
    the ["labels"] list of the result, as a plain string; with it false the
    ["data"] part is the JSON serialization of the whole result. *)
Theorem zero_shot_top_label_or_full_result (cfg : TaskConfiguration)
        (inputs : Input) (s : string) (text label : pyval) (labels : list pyval)
        (g g' : rng_state E) (result : pyval) :
  Djl.get_as_string inputs "data" = Ok s ->
  Json.loads s = Ok (VList (text :: label :: labels)) ->
  pipe E (manual_seed E 42)
       (mkCall [text] [("candidate_labels", VList (label :: labels));
                       ("multi_label", VBool (multi_label cfg))])
  = (Ok result, g') ->
  let r := zero_shot_classification.handle cfg inputs g in
  (return_top_label_only cfg = true ->
   forall d top rest,
     result = VDict d ->
     Py.lookup "labels" d = Some (VList (VStr top :: rest)) ->
     value r = Ok (mkOutput [("data", VStr top)]))
  /\ (return_top_label_only cfg = false ->
      forall dumped,
        Json.dumps result = Ok dumped ->
        value r = Ok (mkOutput [("data", VStr dumped)])).
Proof.
  intros Hs Hl Hpipe r. subst r.
  pose proof (get_as_string_size _ _ _ Hs) as Hsize.
  assert (H0 : Py.getitem_int (VList (text :: label :: labels)) 0 = Ok text)
    by reflexivity.
  assert (H1 : Py.slice_from_1 (VList (text :: label :: labels))
               = Ok (VList (label :: labels))) by reflexivity.
  assert (H2 : Py.truthy (VList (label :: labels)) = Ok true) by reflexivity.
  split.
  - intros Htop d top rest -> Hlabels.
    assert (H3 : Py.getitem_str (VDict d) "labels" = Ok (VList (VStr top :: rest)))
      by (unfold Py.getitem_str; now rewrite Hlabels).
    assert (H4 : Py.getitem_int (VList (VStr top :: rest)) 0 = Ok (VStr top))
      by reflexivity.
    unfold_handlers. run_known. reflexivity.
  - intros Htop dumped Hdumps.
    unfold_handlers. run_known. reflexivity.
Qed.

(** C8 (question answering).  For an input that decodes to an object with the
    keys ["question"] and ["context"], and a pipeline result that is a dict:
    without the key ["answer"] the ["data"] part is the empty string and the
    response is no ErrorPayload; with it, the ["data"] part is its string
    value. *)
Theorem question_answering_answer_or_empty (cfg : TaskConfiguration)
        (inputs : Input) (s : string) (obj : list (string * pyval))
        (question context : pyval) (g g' : rng_state E)
        (result : list (string * pyval)) :
  Djl.get_as_string inputs "data" = Ok s ->
  Json.loads s = Ok (VDict obj) ->
  Py.lookup "question" obj = Some question ->
  Py.lookup "context" obj = Some context ->
  pipe E (manual_seed E 42)
       (mkCall [] [("question", question); ("context", context)])
  = (Ok (VDict result), g') ->
  let r := question_answering.handle cfg inputs g in
  (Py.lookup "answer" result = None ->
   value r = Ok (mkOutput [("data", VStr "")])
   /\ error_of (mkOutput [("data", VStr "")]) = None)
  /\ (forall answer,
        Py.lookup "answer" result = Some (VStr answer) ->
        value r = Ok (mkOutput [("data", VStr answer)])).
Proof.
  intros Hs Hl Hq Hc Hpipe r. subst r.
  pose proof (get_as_string_size _ _ _ Hs) as Hsize.
  assert (H0 : Py.getitem_str (VDict obj) "question" = Ok question)
    by (unfold Py.getitem_str; now rewrite Hq).
  assert (H1 : Py.getitem_str (VDict obj) "context" = Ok context)
    by (unfold Py.getitem_str; now rewrite Hc).
  split.
  - intros Hnone.
    assert (H2 : Py.contains "answer" (VDict result) = Ok false)
      by (unfold Py.contains; now rewrite Hnone).
    unfold_handlers. run_known. split; reflexivity.
  - intros answer Hsome.
    assert (H2 : Py.contains "answer" (VDict result) = Ok true)
      by (unfold Py.contains; now rewrite Hsome).
    assert (H3 : Py.getitem_str (VDict result) "answer" = Ok (VStr answer))
      by (unfold Py.getitem_str; now rewrite Hsome).
    unfold_handlers. run_known. reflexivity.
Qed.

Lemma summary_of_empty (result : pyval) :
  result = VList []
  \/ (Py.isinstance_list result = false /\ exists b, Py.truthy result = Ok b)
  \/ (exists d rest, result = VList (VDict d :: rest)
                     /\ Py.lookup "summary_text" d = None) ->
  summarization.summary_of result = Ok (VStr "").
Proof.
  intros [-> | [[Hlist [b Hb]] | [d [rest [-> Hnone]]]]].
  - reflexivity.
  - unfold summarization.summary_of. rewrite Hb, Hlist. cbn.
    now destruct b.
  - unfold summarization.summary_of, Py.contains.
    cbn [Py.truthy Py.truthy_plain Py.isinstance_list Py.len rbind negb].
    change (Py.getitem_int (VList (VDict d :: rest)) 0) with (Ok (VDict d)).
    cbn [rbind]. rewrite Hnone.
    destruct (Z.of_nat (length (VDict d :: rest)) >? 0); reflexivity.
Qed.

Lemma summary_of_present (d : list (string * pyval)) (rest : list pyval) (v : pyval) :
  Py.lookup "summary_text" d = Some v ->
  summarization.summary_of (VList (VDict d :: rest)) = Ok v.
Proof.
  intros Hsome.
  assert (Hlen : (Z.of_nat (length (VDict d :: rest)) >? 0) = true)
    by (apply Z.gtb_lt; cbn [length]; lia).
  unfold summarization.summary_of, Py.contains.
  cbn [Py.truthy Py.truthy_plain Py.isinstance_list Py.len rbind negb].
  rewrite Hlen.
  change (Py.getitem_int (VList (VDict d :: rest)) 0) with (Ok (VDict d)).
  cbn [rbind negb]. rewrite Hsome. unfold Py.getitem_str. now rewrite Hsome.
Qed.

(** C6, amended (summarization).  The ["data"] part is the empty string when
    the pipeline result is an empty list, a value that is not a list and
    whose truth value is defined, or a list whose first element is a dict
    without the key ["summary_text"]; it is [s] when the result is a list
    whose first element is a dict in which ["summary_text"] holds [s]. *)
Theorem summarization_summary_or_empty (cfg : TaskConfiguration)
        (inputs : Input) (s : string) (g g' : rng_state E) (result : pyval) :
  Djl.get_as_string inputs "data" = Ok s ->
  pipe E (manual_seed E 42)
       (mkCall [VStr s] [("min_length", VInt (min_length cfg));
                         ("max_new_tokens", VInt (max_new_tokens cfg));
                         ("do_sample", VBool (do_sample cfg));
                         ("temperature", VFloat (temperature cfg))])
  = (Ok result, g') ->
  let r := summarization.handle cfg inputs g in
  (result = VList []
   \/ (Py.isinstance_list result = false /\ exists b, Py.truthy result = Ok b)
   \/ (exists d rest, result = VList (VDict d :: rest)
                      /\ Py.lookup "summary_text" d = None) ->
   value r = Ok (mkOutput [("data", VStr "")]))
  /\ (forall d rest summary,
        result = VList (VDict d :: rest) ->
        Py.lookup "summary_text" d = Some (VStr summary) ->
        value r = Ok (mkOutput [("data", VStr summary)])).
Proof.
  intros Hs Hpipe r. subst r.
  pose proof (get_as_string_size _ _ _ Hs) as Hsize.
  split.
  - intros Hshape. apply summary_of_empty in Hshape.
    unfold_handlers. run_known. reflexivity.
  - intros d rest summary -> Hsome.
    pose proof (summary_of_present d rest _ Hsome) as Hsum.
    unfold_handlers. run_known. reflexivity.
Qed.

Lemma first_if_nested_same (result : pyval) :
  result = VList []
  \/ (exists x rest, result = VList (x :: rest) /\ Py.isinstance_list x = false)
  \/ Py.truthy result = Ok false
  \/ (exists s, result = VStr s) ->
  text_classification.first_if_nested result = Ok result.
Proof.
  intros [-> | [[x [rest [-> Hx]]] | [Hfalse | [s ->]]]].
  - reflexivity.
  - unfold text_classification.first_if_nested.
    change (Py.truthy (VList (x :: rest))) with (Ok true).
    change (Py.getitem_int (VList (x :: rest)) 0) with (Ok x).
    cbn [rbind negb]. now rewrite Hx.
  - unfold text_classification.first_if_nested. now rewrite Hfalse.
  - destruct s as [|c s]; reflexivity.
Qed.

(** C7, amended (text classification).  When the pipeline result is a
    non-empty list whose first element is a list, the ["data"] part is the
    JSON serialization of that first inner list.  When the result is an empty
    list, a list whose first element is not a list, a string, or a value
    whose truth value is false, the ["data"] part is the JSON serialization
    of the result unchanged. *)
Theorem text_classification_flattens_one_level (cfg : TaskConfiguration)
        (inputs : Input) (s : string) (g g' : rng_state E) (result : pyval) :
  Djl.get_as_string inputs "data" = Ok s ->
  pipe E (manual_seed E 42) (mkCall [VStr s] []) = (Ok result, g') ->
  let r := text_classification.handle cfg inputs g in
  (forall inner rest dumped,
     result = VList (VList inner :: rest) ->
     Json.dumps (VList inner) = Ok dumped ->
     value r = Ok (mkOutput [("data", VStr dumped)]))
  /\ (forall dumped,
        result = VList []
        \/ (exists x rest, result = VList (x :: rest) /\ Py.isinstance_list x = false)
        \/ Py.truthy result = Ok false
        \/ (exists s', result = VStr s') ->
        Json.dumps result = Ok dumped ->
        value r = Ok (mkOutput [("data", VStr dumped)])).
Proof.
  intros Hs Hpipe r. subst r.
  pose proof (get_as_string_size _ _ _ Hs) as Hsize.
  split.
  - intros inner rest dumped -> Hdumps.
    assert (Hfirst : text_classification.first_if_nested (VList (VList inner :: rest))
                     = Ok (VList inner)) by reflexivity.
    unfold_handlers. run_known. reflexivity.
  - intros dumped Hshape Hdumps. apply first_if_nested_same in Hshape.
    unfold_handlers. run_known. reflexivity.
Qed.

(** C9 (reproducibility).  In every script that seeds (all but speech
    recognition), [torch.manual_seed(42)] comes right before each pipeline
    invocation; the pipeline being a function of the generator state and of
    its arguments, the response and the events of [handle] do not depend on
    the generator state it is called in, so that a second call with the same
    input and configuration gives the same response.  The speech recognition
    script never seeds. *)
Theorem seeded_handlers_are_reproducible (t : task) (cfg : TaskConfiguration)
        (inputs : Input) :
  (seeds_before_pipeline t = true ->
   (forall g : rng_state E, seeded_calls None (events (handle_of t cfg inputs g)) = true)
   /\ (forall g1 g2 : rng_state E,
         value (handle_of t cfg inputs g1) = value (handle_of t cfg inputs g2)
         /\ events (handle_of t cfg inputs g1) = events (handle_of t cfg inputs g2))
   /\ (forall g : rng_state E,
         value (handle_of t cfg inputs (final (handle_of t cfg inputs g)))
         = value (handle_of t cfg inputs g)))
  /\ (seeds_before_pipeline t = false ->
      forall g : rng_state E, seed_events (events (handle_of t cfg inputs g)) = []).
Proof.
  split.
  - intros Hseeds.
    assert (Hsame : forall g1 g2 : rng_state E,
      value (handle_of t cfg inputs g1) = value (handle_of t cfg inputs g2)
      /\ events (handle_of t cfg inputs g1) = events (handle_of t cfg inputs g2)).
    { intros g1 g2.
      destruct t; try discriminate Hseeds;
        unfold_handlers; run_all; split; reflexivity. }
    split; [|split].
    + intros g.
      destruct t; try discriminate Hseeds;
        unfold_handlers; run_all; reflexivity.
    + exact Hsame.
    + intros g. apply Hsame.
  - intros Hseeds g.
    destruct t; try discriminate Hseeds.
    unfold_handlers; run_all; reflexivity.
Qed.

(** C10 (errors of the encode stage).  For every task [handle] returns, and
    what it returns is a well-formed envelope.  For every task, once the
    pipeline has returned a result [v], the response is fixed by the encode
    stage of the script on [v]: its value as the ["data"] part when it
    returns, and the ErrorPayload of its exception when it raises (an
    envelope whose ["data"] part reads back as that error), never an empty
    or default value.  Whenever the [except] clause has run for an exception
    of message [m] after the pipeline had returned normally, the response is
    the ErrorPayload of [m].  So a text-to-speech result without the key
    ["audio"], and a zero-shot result without the key ["labels"] when only
    the top label is asked for, give the ErrorPayload of the [KeyError]. *)
Theorem handle_is_total_and_reports_encode_errors (t : task)
        (cfg : TaskConfiguration) (inputs : Input) (g : rng_state E) :
  let r := handle_of t cfg inputs g in
  (exists out, value r = Ok out /\ well_formed out = true)
  /\ (forall c v,
        In (EvPipe c (Ok v)) (events r) ->
        value r = Ok (match encode_stage t cfg v with
                      | Ok payload => mkOutput [("data", payload)]
                      | Raise e => error_output (exn_msg e)
                      end)
        /\ (forall e,
              encode_stage t cfg v = Raise e ->
              data_of (error_output (exn_msg e)) = Some (VStr (error_text (exn_msg e)))
              /\ error_of (error_output (exn_msg e)) = Some (exn_msg e)))
  /\ (forall c v m,
        In (EvPipe c (Ok v)) (events r) ->
        In (EvLog "ERROR" ("Error in handle function: " ++ m)) (events r) ->
        value r = Ok (error_output m) /\ error_of (error_output m) = Some m)
  /\ (forall s d g',
        t = TextToSpeech ->
        Djl.get_as_string inputs "data" = Ok s ->
        pipe E (manual_seed E 42) (mkCall [VStr s] []) = (Ok (VDict d), g') ->
        Py.lookup "audio" d = None ->
        value r = Ok (error_output "'audio'"))
  /\ (forall s text label labels d g',
        t = ZeroShotClassification ->
        return_top_label_only cfg = true ->
        Djl.get_as_string inputs "data" = Ok s ->
        Json.loads s = Ok (VList (text :: label :: labels)) ->
        pipe E (manual_seed E 42)
             (mkCall [text] [("candidate_labels", VList (label :: labels));
                             ("multi_label", VBool (multi_label cfg))])
        = (Ok (VDict d), g') ->
        Py.lookup "labels" d = None ->
        value r = Ok (error_output "'labels'")).
Proof.
  intros r. subst r. split; [|split; [|split; [|split]]].
  - destruct t; unfold_handlers; run_all; eexists; split; reflexivity.
  - intros c v Hin.
    split; [|intros e _; split; [reflexivity | apply error_of_error_output]].
    remember (match encode_stage t cfg v with
              | Ok payload => mkOutput [("data", payload)]
              | Raise e => error_output (exn_msg e)
              end) as expected eqn:Hexpected.
    revert Hin.
    destruct t; unfold_handlers; run_all; intros Hin;
      in_cases Hin; try discriminate Hin; inversion Hin; subst; clear Hin;
      unfold encode_stage, rbind;
      repeat match goal with
             | H : ?x = _ |- context [?x] => rewrite H
             end;
      reflexivity.
  - intros c v m.
    destruct t; unfold_handlers; run_all; intros Hp Hl;
      in_cases Hp; try discriminate Hp; in_cases Hl; try discriminate Hl;
      injection Hl as Hl; rewrite Hl;
      (split; [reflexivity | apply error_of_error_output]).
  - intros s d g' -> Hs Hpipe Hnone.
    pose proof (get_as_string_size _ _ _ Hs) as Hsize.
    assert (H0 : Py.getitem_str (VDict d) "audio" = Raise (KeyError "'audio'"))
      by (unfold Py.getitem_str; now rewrite Hnone).
    unfold_handlers. run_known. reflexivity.
  - intros s text label labels d g' -> Htop Hs Hl Hpipe Hnone.
    pose proof (get_as_string_size _ _ _ Hs) as Hsize.
    assert (H0 : Py.getitem_int (VList (text :: label :: labels)) 0 = Ok text)
      by reflexivity.
    assert (H1 : Py.slice_from_1 (VList (text :: label :: labels))
                 = Ok (VList (label :: labels))) by reflexivity.
    assert (H2 : Py.truthy (VList (label :: labels)) = Ok true) by reflexivity.
    assert (H3 : Py.getitem_str (VDict d) "labels" = Raise (KeyError "'labels'"))
      by (unfold Py.getitem_str; now rewrite Hnone).
    unfold_handlers. run_known. reflexivity.
Qed.

End Claims.

(** ** The text-to-speech samples *)

Lemma rows_of_one (data : list pyval) :
  map (Np.tolist []) (Np.rows (length data) 1 data) = data.
Proof.
  induction data as [|x data IH]; [reflexivity|].
  cbn [length Np.rows map firstn skipn].
  change (Np.tolist [] [x]) with x. now rewrite IH.
Qed.

(** A batch of one row is flattened: [squeeze] removes its axis of length 1. *)
Lemma squeeze_tolist_single_row (data : list pyval) :
  length data <> 1%nat ->
  Np.squeeze_tolist (VArray [1%nat; length data] data) = Ok (VList data).
Proof.
  intros Hn. unfold Np.squeeze_tolist.
  cbn [Np.asarray rbind fst snd Np.squeeze_shape filter Nat.eqb negb].
  apply Nat.eqb_neq in Hn. rewrite Hn.
  cbn [negb]. change (Np.tolist [length data] data)
    with (VList (map (Np.tolist []) (Np.rows (length data) 1 data))).
  now rewrite rows_of_one.
Qed.

(** C3 (text-to-speech).  For the pipeline result
    [{"audio": [[0.1, 0.2], [0.3, 0.4]]}], given as nested lists or as a two
    by two array, the ["audio"] field of the encoded JSON is the nested list
    [[0.1, 0.2], [0.3, 0.4]]: [numpy.squeeze] removes the axes of length one
    only, so these samples are not flattened to [0.1, 0.2, 0.3, 0.4]. *)
Theorem tts_two_by_two_audio_stays_nested :
  value (@handle_of (stub (Ok (VDict [("audio", samples_2x2)])))
                    TextToSpeech cfg0 (req "hello") 0%nat)
  = Ok (mkOutput [("data", VStr (jq "{'audio': [[0.1, 0.2], [0.3, 0.4]]}"))])
  /\ value (@handle_of (stub (Ok (VDict [("audio", array_2x2)])))
                       TextToSpeech cfg0 (req "hello") 0%nat)
     = Ok (mkOutput [("data", VStr (jq "{'audio': [[0.1, 0.2], [0.3, 0.4]]}"))])
  /\ Json.loads (jq "{'audio': [[0.1, 0.2], [0.3, 0.4]]}")
     = Ok (VDict [("audio", samples_2x2)])
  /\ samples_2x2 <> samples_flat.
Proof.
  repeat split; try reflexivity. discriminate.
Qed.

(** ** Concrete runs *)

(** C2, as stated, fails: the chat pipeline raises [RuntimeError()], whose
    [str] is empty, and the value under ["error"] is the empty string. *)
Lemma pipeline_error_message_may_be_empty :
  let e := mkExn "RuntimeError" "" in
  let r := @handle_of (stub (Raise e)) Chat cfg0 (req "[]") 0%nat in
  In (EvPipe (mkCall [VList []] chat_kwargs0) (Raise e)) (events r)
  /\ value r = Ok (error_output "")
  /\ error_of (error_output "") = Some "".
Proof.
  cbv zeta. split; [right; left; reflexivity|]. split; reflexivity.
Qed.

(** C4, as stated, fails: on the empty array the message is the one of the
    [IndexError], not the validation message. *)
Lemma zero_shot_empty_array_is_an_index_error :
  let r := @handle_of (stub (Ok VNone)) ZeroShotClassification cfg0 (req "[]") 0%nat in
  Json.loads "[]" = Ok (VList [])
  /\ value r = Ok (error_output "list index out of range")
  /\ error_of (error_output "list index out of range") = Some "list index out of range"
  /\ "list index out of range" <> exn_msg zero_shot_classification.no_label.
Proof.
  cbv zeta. repeat split; try reflexivity. discriminate.
Qed.

(** C6, as stated, fails twice.  An array of two samples is not a list, and
    a list that holds [None] has a first element without the field
    ["summary_text"]; in both cases the response is an ErrorPayload, not the
    empty string: [bool(result)] raises on the array, and
    ['summary_text' in None] raises on the list. *)
Lemma summarization_malformed_results_are_errors :
  let samples := VArray [2%nat] [VFloat "0.1"; VFloat "0.2"] in
  let on_array := @handle_of (stub (Ok samples)) Summarization cfg0 (req "a long text") 0%nat in
  let on_none := @handle_of (stub (Ok (VList [VNone]))) Summarization cfg0
                            (req "a long text") 0%nat in
  Py.isinstance_list samples = false
  /\ value on_array = Ok (error_output (exn_msg Py.ambiguous_truth))
  /\ value on_none = Ok (error_output "argument of type 'NoneType' is not iterable")
  /\ data_of (error_output (exn_msg Py.ambiguous_truth)) <> Some (VStr "")
  /\ data_of (error_output "argument of type 'NoneType' is not iterable") <> Some (VStr "").
Proof.
  cbv zeta. repeat split; try reflexivity; discriminate.
Qed.

(** C7, as stated, fails: a dict is a result other than a list of lists, it
    has a JSON serialization, and the response is the ErrorPayload of
    [KeyError(0)]. *)
Lemma text_classification_dict_result_is_an_error :
  let result := VDict [("label", VStr "A"); ("score", VFloat "0.9")] in
  let r := @handle_of (stub (Ok result)) TextClassification cfg0 (req "a text") 0%nat in
  Json.dumps result = Ok (jq "{'label': 'A', 'score': 0.9}")
  /\ value r = Ok (error_output "0")
  /\ data_of (error_output "0") <> Some (VStr (jq "{'label': 'A', 'score': 0.9}")).
Proof.
  cbv zeta. repeat split; try reflexivity. discriminate.
Qed.

(** The speech recognition script does not seed: with a pipeline that
    samples, two calls in a row answer differently. *)
Remark asr_response_depends_on_generator :
  let first := @handle_of sampler AutomaticSpeechRecognition cfg0 (req "[0.5]") 0%nat in
  let second := @handle_of sampler AutomaticSpeechRecognition cfg0 (req "[0.5]") (final first) in
  value first = Ok (mkOutput [("data", VStr "0")])
  /\ value second = Ok (mkOutput [("data", VStr "1")]).
Proof. split; reflexivity. Qed.

(** The encode stage can raise in every script, and then no response is
    empty: on a result the stage raises on, each handler answers with the
    ErrorPayload of the exception of its encode stage. *)
Remark encode_errors_occur_in_every_handler (t : task) (cfg : TaskConfiguration) :
  exists e,
    encode_stage t cfg (unencodable t) = Raise e
    /\ value (@handle_of (stub (Ok (unencodable t))) t cfg (request_for t) 0%nat)
       = Ok (error_output (exn_msg e)).
Proof.
  destruct t; try (eexists; split; reflexivity);
    destruct (return_top_label_only cfg) eqn:Htop;
    eexists; (split; [unfold encode_stage; rewrite Htop; reflexivity|]);
    unfold handle_of, zero_shot_classification.handle, zero_shot_classification.body;
    rewrite run_try_except; run_known; reflexivity.
Qed.

(** ** Instances of the theorems *)

Lemma warmup_returns_empty_envelope_witness :
  Djl.size (mkInput []) = 0
  /\ value (@handle_of (stub (Ok VNone)) Chat cfg0 (mkInput []) 3%nat) = Ok (mkOutput [])
  /\ pipe_calls (events (@handle_of (stub (Ok VNone)) Chat cfg0 (mkInput []) 3%nat)) = []
  /\ final (@handle_of (stub (Ok VNone)) Chat cfg0 (mkInput []) 3%nat) = 3%nat.
Proof.
  split; [reflexivity|].
  apply (@warmup_returns_empty_envelope (stub (Ok VNone)) Chat cfg0 (mkInput []) 3%nat).
  reflexivity.
Defined.

Lemma pipeline_error_is_reported_witness :
  let e := mkExn "RuntimeError" "CUDA out of memory" in
  let r := @handle_of (stub (Raise e)) Chat cfg0 (req "[]") 0%nat in
  In (EvPipe (mkCall [VList []] chat_kwargs0) (Raise e)) (events r)
  /\ exists out,
       value r = Ok out
       /\ data_of out = Some (VStr (error_text "CUDA out of memory"))
       /\ error_of out = Some "CUDA out of memory".
Proof.
  cbv zeta.
  assert (Hin : In (EvPipe (mkCall [VList []] chat_kwargs0)
                           (Raise (mkExn "RuntimeError" "CUDA out of memory")))
                   (events (@handle_of (stub (Raise (mkExn "RuntimeError" "CUDA out of memory")))
                                       Chat cfg0 (req "[]") 0%nat)))
    by (right; left; reflexivity).
  split; [exact Hin|].
  exact (@pipeline_error_is_reported
           (stub (Raise (mkExn "RuntimeError" "CUDA out of memory")))
           Chat cfg0 (req "[]") 0%nat _ _ Hin).
Defined.

Lemma zero_shot_too_few_elements_witness :
  let r := @zero_shot_classification.handle (stub (Ok VNone)) cfg0 (req (jq "['text']")) 4%nat in
  Djl.get_as_string (req (jq "['text']")) "data" = Ok (jq "['text']")
  /\ Json.loads (jq "['text']") = Ok (VList [VStr "text"])
  /\ (length [VStr "text"] < 2)%nat
  /\ exists out,
       value r = Ok out
       /\ error_of out = Some "At least one candidate label required for zero-shot"
       /\ pipe_calls (events r) = []
       /\ final r = 4%nat.
Proof.
  cbv zeta. split; [reflexivity|]. split; [reflexivity|]. split; [simpl; lia|].
  apply (@zero_shot_too_few_elements (stub (Ok VNone)) cfg0 (req (jq "['text']"))
           (jq "['text']") [VStr "text"] 4%nat); [reflexivity | reflexivity | simpl; lia].
Defined.

Lemma zero_shot_top_label_or_full_result_witness :
  Djl.get_as_string (req (jq "['text','label1','label2']")) "data"
  = Ok (jq "['text','label1','label2']")
  /\ Json.loads (jq "['text','label1','label2']")
     = Ok (VList [VStr "text"; VStr "label1"; VStr "label2"])
  /\ value (@zero_shot_classification.handle (stub (Ok labels_result)) cfg0
              (req (jq "['text','label1','label2']")) 7%nat)
     = Ok (mkOutput [("data", VStr "label2")])
  /\ value (@zero_shot_classification.handle (stub (Ok labels_result)) cfg1
              (req (jq "['text','label1','label2']")) 7%nat)
     = Ok (mkOutput
             [("data", VStr (jq "{'labels': ['label2', 'label1'], 'scores': [0.7, 0.3]}"))]).
Proof.
  split; [reflexivity|]. split; [reflexivity|]. split.
  - refine (proj1 (@zero_shot_top_label_or_full_result (stub (Ok labels_result)) cfg0
                     (req (jq "['text','label1','label2']")) _
                     (VStr "text") (VStr "label1") [VStr "label2"] 7%nat 1%nat
                     labels_result eq_refl eq_refl eq_refl)
                  eq_refl _ "label2" [VStr "label1"] eq_refl eq_refl).
  - refine (proj2 (@zero_shot_top_label_or_full_result (stub (Ok labels_result)) cfg1
                     (req (jq "['text','label1','label2']")) _
                     (VStr "text") (VStr "label1") [VStr "label2"] 7%nat 1%nat
                     labels_result eq_refl eq_refl eq_refl)
                  eq_refl _ eq_refl).
Defined.

Lemma summarization_summary_or_empty_witness :
  Djl.get_as_string (req "a long text") "data" = Ok "a long text"
  /\ value (@summarization.handle (stub (Ok (VList []))) cfg0 (req "a long text") 2%nat)
     = Ok (mkOutput [("data", VStr "")])
  /\ value (@summarization.handle
              (stub (Ok (VList [VDict [("summary_text", VStr "x")]])))
              cfg0 (req "a long text") 2%nat)
     = Ok (mkOutput [("data", VStr "x")]).
Proof.
  split; [reflexivity|]. split.
  - refine (proj1 (@summarization_summary_or_empty (stub (Ok (VList []))) cfg0
                     (req "a long text") _ 2%nat 1%nat (VList []) eq_refl eq_refl)
                  (or_introl eq_refl)).
  - refine (proj2 (@summarization_summary_or_empty
                     (stub (Ok (VList [VDict [("summary_text", VStr "x")]]))) cfg0
                     (req "a long text") _ 2%nat 1%nat _ eq_refl eq_refl)
                  [("summary_text", VStr "x")] [] "x" eq_refl eq_refl).
Defined.

Lemma text_classification_flattens_one_level_witness :
  Djl.get_as_string (req "a text") "data" = Ok "a text"
  /\ Json.dumps (VList scores_AB) = Ok scores_AB_text
  /\ value (@text_classification.handle (stub (Ok (VList [VList scores_AB]))) cfg0
              (req "a text") 2%nat)
     = Ok (mkOutput [("data", VStr scores_AB_text)])
  /\ value (@text_classification.handle (stub (Ok (VList scores_AB))) cfg0
              (req "a text") 2%nat)
     = Ok (mkOutput [("data", VStr scores_AB_text)]).
Proof.
  split; [reflexivity|]. split; [reflexivity|]. split.
  - refine (proj1 (@text_classification_flattens_one_level
                     (stub (Ok (VList [VList scores_AB]))) cfg0
                     (req "a text") "a text" 2%nat 1%nat (VList [VList scores_AB])
                     eq_refl eq_refl)
                  scores_AB [] scores_AB_text eq_refl eq_refl).
  - refine (proj2 (@text_classification_flattens_one_level
                     (stub (Ok (VList scores_AB))) cfg0
                     (req "a text") "a text" 2%nat 1%nat (VList scores_AB)
                     eq_refl eq_refl)
                  scores_AB_text
                  (or_intror (or_introl
                     (ex_intro _ (VDict [("label", VStr "A"); ("score", VFloat "0.9")])
                        (ex_intro _ [VDict [("label", VStr "B"); ("score", VFloat "0.1")]]
                           (conj eq_refl eq_refl)))))
                  eq_refl).
Defined.

Lemma question_answering_answer_or_empty_witness :
  let text := (jq "{'question': 'q', 'context': 'c'}") in
  Djl.get_as_string (req text) "data" = Ok text
  /\ Json.loads text = Ok (VDict [("question", VStr "q"); ("context", VStr "c")])
  /\ value (@question_answering.handle (stub (Ok (VDict [("score", VFloat "0.5")])))
              cfg0 (req text) 2%nat)
     = Ok (mkOutput [("data", VStr "")])
  /\ value (@question_answering.handle
              (stub (Ok (VDict [("score", VFloat "0.5"); ("answer", VStr "Paris")])))
              cfg0 (req text) 2%nat)
     = Ok (mkOutput [("data", VStr "Paris")]).
Proof.
  cbv zeta. split; [reflexivity|]. split; [reflexivity|]. split.
  - refine (proj1 (proj1 (@question_answering_answer_or_empty (stub _) cfg0
                     (req (jq "{'question': 'q', 'context': 'c'}")) _
                     [("question", VStr "q"); ("context", VStr "c")] (VStr "q") (VStr "c")
                     2%nat 1%nat [("score", VFloat "0.5")]
                     eq_refl eq_refl eq_refl eq_refl eq_refl) eq_refl)).
  - refine (proj2 (@question_answering_answer_or_empty (stub _) cfg0
                     (req (jq "{'question': 'q', 'context': 'c'}")) _
                     [("question", VStr "q"); ("context", VStr "c")] (VStr "q") (VStr "c")
                     2%nat 1%nat [("score", VFloat "0.5"); ("answer", VStr "Paris")]
                     eq_refl eq_refl eq_refl eq_refl eq_refl) "Paris" eq_refl).
Defined.

Lemma seeded_handlers_are_reproducible_witness :
  seeds_before_pipeline Chat = true
  /\ seeded_calls None (events (@handle_of sampler Chat cfg0 (req "[]") 3%nat)) = true
  /\ value (@handle_of sampler Chat cfg0 (req "[]") 3%nat)
     = value (@handle_of sampler Chat cfg0 (req "[]") 8%nat)
  /\ seed_events (events (@handle_of sampler AutomaticSpeechRecognition cfg0
                            (req "[0.5]") 3%nat)) = [].
Proof.
  split; [reflexivity|].
  destruct (@seeded_handlers_are_reproducible sampler Chat cfg0 (req "[]"))
    as [Hseeded _].
  destruct (Hseeded eq_refl) as [Hcalls [Hsame _]].
  split; [apply Hcalls|]. split; [apply (Hsame 3%nat 8%nat)|].
  exact (proj2 (@seeded_handlers_are_reproducible sampler AutomaticSpeechRecognition
                  cfg0 (req "[0.5]")) eq_refl 3%nat).
Defined.

Lemma handle_is_total_and_reports_encode_errors_witness :
  let result := [("sampling_rate", VInt 16000)] in
  let r := @handle_of (stub (Ok (VBytes "raw"))) Chat cfg0 (req "[]") 5%nat in
  Djl.get_as_string (req "hello") "data" = Ok "hello"
  /\ pipe (stub (Ok (VDict result))) 0%nat (mkCall [VStr "hello"] [])
     = (Ok (VDict result), 1%nat)
  /\ Py.lookup "audio" result = None
  /\ value (@handle_of (stub (Ok (VDict result))) TextToSpeech cfg0 (req "hello") 5%nat)
     = Ok (error_output "'audio'")
  /\ In (EvPipe (mkCall [VList []] chat_kwargs0) (Ok (VBytes "raw"))) (events r)
  /\ encode_stage Chat cfg0 (VBytes "raw")
     = Raise (TypeError "Object of type bytes is not JSON serializable")
  /\ value r = Ok (error_output "Object of type bytes is not JSON serializable").
Proof.
  cbv zeta. split; [reflexivity|]. split; [reflexivity|]. split; [reflexivity|].
  split.
  - refine (proj1 (proj2 (proj2 (proj2
              (@handle_is_total_and_reports_encode_errors (stub _) TextToSpeech cfg0
                 (req "hello") 5%nat))))
            "hello" [("sampling_rate", VInt 16000)] 1%nat eq_refl eq_refl eq_refl eq_refl).
  - assert (Hin : In (EvPipe (mkCall [VList []] chat_kwargs0) (Ok (VBytes "raw")))
                     (events (@handle_of (stub (Ok (VBytes "raw"))) Chat cfg0
                                (req "[]") 5%nat)))
      by (right; left; reflexivity).
    split; [exact Hin|]. split; [reflexivity|].
    exact (proj1 (proj1 (proj2
              (@handle_is_total_and_reports_encode_errors (stub (Ok (VBytes "raw")))
                 Chat cfg0 (req "[]") 5%nat))
            (mkCall [VList []] chat_kwargs0) (VBytes "raw") Hin)).
Defined.

(** ** Further properties of the handlers *)

Lemma lookup_dict_set_same (k : string) (x : pyval) (d : list (string * pyval)) :
  Py.lookup k (Py.dict_set k x d) = Some x.
Proof.
  induction d as [|[k' v'] d IH]; cbn [Py.dict_set Py.lookup].
  - now rewrite String.eqb_refl.
  - destruct (String.eqb k k') eqn:Hk; cbn [Py.lookup].
    + now rewrite String.eqb_refl.
    + now rewrite Hk.
Qed.

Lemma lookup_dict_set_other (k k0 : string) (x : pyval) (d : list (string * pyval)) :
  k0 <> k -> Py.lookup k0 (Py.dict_set k x d) = Py.lookup k0 d.
Proof.
  intros Hne. induction d as [|[k' v'] d IH]; cbn [Py.dict_set Py.lookup].
  - apply String.eqb_neq in Hne. now rewrite Hne.
  - destruct (String.eqb k k') eqn:Hk; cbn [Py.lookup].
    + apply String.eqb_eq in Hk. subst k'.
      apply String.eqb_neq in Hne. now rewrite Hne.
    + now rewrite IH.
Qed.

Lemma keys_dict_set (k : string) (x y : pyval) (d : list (string * pyval)) :
  Py.lookup k d = Some y -> map fst (Py.dict_set k x d) = map fst d.
Proof.
  induction d as [|[k' v'] d IH]; cbn [Py.dict_set Py.lookup]; [discriminate|].
  destruct (String.eqb k k') eqn:Hk; cbn [map fst].
  - apply String.eqb_eq in Hk. now subst.
  - intros H. now rewrite IH.
Qed.

Section Extras.
Context {E : Env}.

(** X1 (only the data part is read).  Two requests that are both empty or
    both not, and whose ["data"] parts read the same, are handled the same
    way: no handler looks at any other part of the request. *)
Theorem handle_reads_only_data (t : task) (cfg : TaskConfiguration)
        (inputs inputs' : Input) (g : rng_state E) :
  (Djl.size inputs =? 0) = (Djl.size inputs' =? 0) ->
  Djl.get_as_string inputs "data" = Djl.get_as_string inputs' "data" ->
  handle_of t cfg inputs g = handle_of t cfg inputs' g.
Proof.
  intros Hsize Hdata.
  destruct t; unfold_handlers; rewrite Hsize, Hdata; reflexivity.
Qed.

(** X2 (the empty envelope means warm-up).  Whatever a handler returns, the
    envelope is empty exactly when the content size of the request is 0;
    otherwise it holds exactly one part, named ["data"]. *)
Theorem empty_envelope_iff_warmup (t : task) (cfg : TaskConfiguration)
        (inputs : Input) (g : rng_state E) (out : Output) :
  value (handle_of t cfg inputs g) = Ok out ->
  (parts out = [] <-> Djl.size inputs = 0)
  /\ (Djl.size inputs <> 0 -> exists payload, parts out = [("data", payload)]).
Proof.
  destruct (Djl.size inputs =? 0) eqn:Hsize.
  - destruct t; unfold_handlers; rewrite Hsize; run_all;
      apply Z.eqb_eq in Hsize; intros H; injection H as <-;
      (split; [split; [intros _; exact Hsize | reflexivity]
              | intros Hne; contradiction]).
  - destruct t; unfold_handlers; rewrite Hsize; run_all;
      apply Z.eqb_neq in Hsize; intros H; try discriminate H;
      injection H as <-;
      (split; [split; [discriminate | intros Hz; contradiction]
              | intros _; eexists; reflexivity]).
Qed.

(** X3 (no retry).  A call of [handle] invokes the pipeline at most once and
    seeds the generator at most once; it leaves the generator state as it
    found it unless it has seeded it or invoked the pipeline. *)
Theorem pipeline_invoked_at_most_once (t : task) (cfg : TaskConfiguration)
        (inputs : Input) (g : rng_state E) :
  (length (pipe_calls (events (handle_of t cfg inputs g))) <= 1)%nat
  /\ (length (seed_events (events (handle_of t cfg inputs g))) <= 1)%nat
  /\ (final (handle_of t cfg inputs g) = g
      \/ seed_events (events (handle_of t cfg inputs g)) <> []
      \/ pipe_calls (events (handle_of t cfg inputs g)) <> []).
Proof.
  destruct t; unfold_handlers; run_all;
    (split; [cbn; lia | split; [cbn; lia|]]);
    first [ left; reflexivity
          | right; left; discriminate
          | right; right; discriminate ].
Qed.

(** X4 (what is logged).  Every run is of one of three kinds: a warm-up,
    which logs one line at level INFO and returns the empty envelope; a
    success, which logs nothing and returns one ["data"] part; or a failure,
    which logs exactly one line at level ERROR, and then the response is the
    ErrorPayload of the very message that was logged. *)
Theorem run_is_warmup_success_or_logged_error (t : task) (cfg : TaskConfiguration)
        (inputs : Input) (g : rng_state E) :
  let r := handle_of t cfg inputs g in
  (Djl.size inputs = 0
   /\ log_events (events r)
      = [EvLog "INFO" "Handling warmup call - returning empty output"]
   /\ value r = Ok (mkOutput []))
  \/ (Djl.size inputs <> 0
      /\ log_events (events r) = []
      /\ exists payload, value r = Ok (mkOutput [("data", payload)]))
  \/ (Djl.size inputs <> 0
      /\ exists m,
           log_events (events r) = [EvLog "ERROR" ("Error in handle function: " ++ m)]
           /\ value r = Ok (error_output m)).
Proof.
  cbv zeta.
  destruct t; unfold_handlers; run_all;
    match goal with
    | H : (Djl.size inputs =? 0) = true |- _ =>
        apply Z.eqb_eq in H; left; repeat split; assumption
    | H : (Djl.size inputs =? 0) = false |- _ =>
        apply Z.eqb_neq in H; right;
        first [ left; split; [assumption|]; split; [reflexivity|];
                eexists; reflexivity
              | right; split; [assumption|]; eexists; split; reflexivity ]
    end.
Qed.

(** X5 (no readable data part).  When the request is not empty and the host
    raises on reading its ["data"] part (no such part, or bytes that do not
    decode), every handler answers with the ErrorPayload of that exception;
    nothing else has happened: no seed, no pipeline call, one line logged. *)
Theorem unreadable_data_part_is_reported (t : task) (cfg : TaskConfiguration)
        (inputs : Input) (g : rng_state E) (e : exn) :
  Djl.size inputs <> 0 ->
  Djl.get_as_string inputs "data" = Raise e ->
  handle_of t cfg inputs g
  = mkRun (Ok (error_output (exn_msg e))) g
          [EvLog "ERROR" ("Error in handle function: " ++ exn_msg e)].
Proof.
  intros Hsize Hdata. apply Z.eqb_neq in Hsize.
  destruct t; unfold_handlers; run_known; reflexivity.
Qed.

(** X6 (malformed JSON).  In the four scripts that decode their input with
    [json.loads], a text that does not decode gives the ErrorPayload of the
    decoder's exception and the pipeline is not invoked.  The question
    answering script has already seeded the generator by then; the three
    others leave it as they found it. *)
Theorem undecodable_json_is_reported (t : task) (cfg : TaskConfiguration)
        (inputs : Input) (s : string) (g : rng_state E) (e : exn) :
  decodes_json t = true ->
  Djl.get_as_string inputs "data" = Ok s ->
  Json.loads s = Raise e ->
  value (handle_of t cfg inputs g) = Ok (error_output (exn_msg e))
  /\ pipe_calls (events (handle_of t cfg inputs g)) = []
  /\ final (handle_of t cfg inputs g)
     = match t with
       | QuestionAnswering => manual_seed E 42
       | _ => g
       end.
Proof.
  intros Ht Hs Hl.
  pose proof (get_as_string_size _ _ _ Hs) as Hsize.
  destruct t; try discriminate Ht; unfold_handlers; run_known; repeat split.
Qed.

(** X7 (question answering, missing key).  When the input decodes to an
    object without the key ["question"], or with it but without the key
    ["context"], the response is the ErrorPayload of the [KeyError] that
    names the first missing key, and the pipeline is not invoked. *)
Theorem question_answering_missing_key (cfg : TaskConfiguration)
        (inputs : Input) (s : string) (obj : list (string * pyval))
        (g : rng_state E) :
  Djl.get_as_string inputs "data" = Ok s ->
  Json.loads s = Ok (VDict obj) ->
  Py.lookup "question" obj = None \/ Py.lookup "context" obj = None ->
  let r := question_answering.handle cfg inputs g in
  value r = Ok (error_output (match Py.lookup "question" obj with
                              | None => "'question'"
                              | Some _ => "'context'"
                              end))
  /\ pipe_calls (events r) = [].
Proof.
  intros Hs Hl Hmiss r. subst r.
  pose proof (get_as_string_size _ _ _ Hs) as Hsize.
  destruct (Py.lookup "question" obj) as [q|] eqn:Hq.
  - destruct Hmiss as [Hmiss|Hc]; [discriminate|].
    assert (H0 : Py.getitem_str (VDict obj) "question" = Ok q)
      by (unfold Py.getitem_str; now rewrite Hq).
    assert (H1 : Py.getitem_str (VDict obj) "context" = Raise (KeyError "'context'"))
      by (unfold Py.getitem_str; now rewrite Hc).
    unfold_handlers. run_known. split; reflexivity.
  - assert (H0 : Py.getitem_str (VDict obj) "question" = Raise (KeyError "'question'"))
      by (unfold Py.getitem_str; now rewrite Hq).
    unfold_handlers. run_known. split; reflexivity.
Qed.

(** X8 (raw text reaches the pipeline).  The summarization, text
    classification, text-to-image and text-to-speech scripts do not decode
    their input: whatever text the ["data"] part holds (also a text that is
    no JSON, also the empty text), the generator is seeded and the pipeline
    is invoked on exactly that text, with the keyword arguments of the
    configuration. *)
Theorem raw_text_reaches_pipeline (t : task) (cfg : TaskConfiguration)
        (inputs : Input) (s : string) (g : rng_state E) :
  takes_raw_text t = true ->
  Djl.get_as_string inputs "data" = Ok s ->
  let call := mkCall [VStr s] (raw_text_kwargs t cfg) in
  exists rest,
    events (handle_of t cfg inputs g)
    = EvSeed 42 :: EvPipe call (fst (pipe E (manual_seed E 42) call)) :: rest.
Proof.
  intros Ht Hs call. subst call.
  pose proof (get_as_string_size _ _ _ Hs) as Hsize.
  destruct t; try discriminate Ht; unfold_handlers; rewrite Hsize;
    rewrite run_bind_lift, Hs; run_all;
    match goal with
    | H : pipe E _ _ = _ |- _ => cbn [raw_text_kwargs]; rewrite H
    end;
    eexists; reflexivity.
Qed.

(** X9 (zero-shot, input that is no array).  The script does not check that
    the decoded input is an array.  A JSON string is split like one: its
    first character is taken as the text and the rest as the candidate
    labels, so a string of one character fails the validation and a longer
    one reaches the pipeline.  An object, a number, a boolean or [null]
    gives an ErrorPayload without any pipeline call. *)
Theorem zero_shot_input_that_is_no_array (cfg : TaskConfiguration)
        (inputs : Input) (s : string) (v : pyval) (g : rng_state E) :
  Djl.get_as_string inputs "data" = Ok s ->
  Json.loads s = Ok v ->
  let r := zero_shot_classification.handle cfg inputs g in
  (forall c,
     v = VStr (String c EmptyString) ->
     value r = Ok (error_output "At least one candidate label required for zero-shot")
     /\ pipe_calls (events r) = [])
  /\ (forall c c' rest,
        v = VStr (String c (String c' rest)) ->
        let call := mkCall [VStr (String c EmptyString)]
                           [("candidate_labels", VStr (String c' rest));
                            ("multi_label", VBool (multi_label cfg))] in
        pipe_calls (events r)
        = [EvPipe call (fst (pipe E (manual_seed E 42) call))])
  /\ (json_scalar_or_object v = true ->
      exists m, value r = Ok (error_output m) /\ pipe_calls (events r) = []).
Proof.
  intros Hs Hl r. subst r.
  pose proof (get_as_string_size _ _ _ Hs) as Hsize.
  split; [|split].
  - intros c ->.
    assert (H0 : Py.getitem_int (VStr (String c EmptyString)) 0
                 = Ok (VStr (String c EmptyString))) by reflexivity.
    assert (H1 : Py.slice_from_1 (VStr (String c EmptyString)) = Ok (VStr EmptyString))
      by reflexivity.
    assert (H2 : Py.truthy (VStr EmptyString) = Ok false) by reflexivity.
    unfold_handlers. run_known. split; reflexivity.
  - intros c c' rest -> call. subst call.
    assert (H0 : Py.getitem_int (VStr (String c (String c' rest))) 0
                 = Ok (VStr (String c EmptyString))) by reflexivity.
    assert (H1 : Py.slice_from_1 (VStr (String c (String c' rest)))
                 = Ok (VStr (String c' rest))) by reflexivity.
    assert (H2 : Py.truthy (VStr (String c' rest)) = Ok true) by reflexivity.
    unfold_handlers. rewrite Hsize.
    rewrite run_bind_lift, Hs, run_bind_lift, Hl, run_bind_lift, H0,
      run_bind_lift, H1, run_bind_lift, H2.
    cbn [negb]. run_all; reflexivity.
  - intros Hv.
    assert (H0 : exists e, Py.getitem_int v 0 = Raise e)
      by (destruct v; try discriminate Hv; eexists; reflexivity).
    destruct H0 as [e H0].
    exists (exn_msg e). unfold_handlers. run_known. split; reflexivity.
Qed.

(** X10 (text-to-speech keeps the other fields).  When the pipeline result is
    a dict with an ["audio"] entry that converts, the response is the JSON
    text of that dict with the ["audio"] entry replaced by the converted
    samples: the keys and their order are those of the result, and every
    other entry (the sampling rate, for instance) is unchanged. *)
Theorem text_to_speech_keeps_other_fields (cfg : TaskConfiguration)
        (inputs : Input) (s : string) (d : list (string * pyval))
        (audio samples : pyval) (dumped : string) (g g' : rng_state E) :
  Djl.get_as_string inputs "data" = Ok s ->
  pipe E (manual_seed E 42) (mkCall [VStr s] []) = (Ok (VDict d), g') ->
  Py.lookup "audio" d = Some audio ->
  Np.squeeze_tolist audio = Ok samples ->
  let encoded := Py.dict_set "audio" samples d in
  Json.dumps (VDict encoded) = Ok dumped ->
  value (text_to_speech.handle cfg inputs g) = Ok (mkOutput [("data", VStr dumped)])
  /\ map fst encoded = map fst d
  /\ Py.lookup "audio" encoded = Some samples
  /\ (forall k, k <> "audio" -> Py.lookup k encoded = Py.lookup k d).
Proof.
  intros Hs Hpipe Haudio Hsamples encoded Hdumps. subst encoded.
  pose proof (get_as_string_size _ _ _ Hs) as Hsize.
  assert (H0 : Py.getitem_str (VDict d) "audio" = Ok audio)
    by (unfold Py.getitem_str; now rewrite Haudio).
  assert (H1 : Py.setitem_str (VDict d) "audio" samples
               = Ok (VDict (Py.dict_set "audio" samples d))) by reflexivity.
  split; [|split; [|split]].
  - unfold_handlers. run_known. reflexivity.
  - eapply keys_dict_set; eassumption.
  - apply lookup_dict_set_same.
  - intros k Hk. now apply lookup_dict_set_other.
Qed.

(** X11 (text-to-speech, shapes of the audio).  For an ["audio"] array with
    exactly one axis longer than one, whatever axes of length one surround
    it, the response carries the flat list of the samples.  For an array
    whose axes all have length one (a single sample) [squeeze] leaves no
    axis, and the response carries that sample as a bare value, not as a
    list. *)
Theorem text_to_speech_audio_shapes (cfg : TaskConfiguration)
        (inputs : Input) (s : string) (d : list (string * pyval))
        (shape : list nat) (data : list pyval) (g g' : rng_state E) :
  Djl.get_as_string inputs "data" = Ok s ->
  pipe E (manual_seed E 42) (mkCall [VStr s] []) = (Ok (VDict d), g') ->
  Py.lookup "audio" d = Some (VArray shape data) ->
  let r := text_to_speech.handle cfg inputs g in
  (Np.squeeze_shape shape = [length data] ->
   forall dumped,
     Json.dumps (VDict (Py.dict_set "audio" (VList data) d)) = Ok dumped ->
     value r = Ok (mkOutput [("data", VStr dumped)]))
  /\ (Np.squeeze_shape shape = [] ->
      forall x dumped,
        data = [x] ->
        Json.dumps (VDict (Py.dict_set "audio" x d)) = Ok dumped ->
        value r = Ok (mkOutput [("data", VStr dumped)])).
Proof.
  intros Hs Hpipe Haudio r. subst r.
  pose proof (get_as_string_size _ _ _ Hs) as Hsize.
  assert (H0 : Py.getitem_str (VDict d) "audio" = Ok (VArray shape data))
    by (unfold Py.getitem_str; now rewrite Haudio).
  split.
  - intros Hshape dumped Hdumps.
    assert (H1 : Np.squeeze_tolist (VArray shape data) = Ok (VList data)).
    { unfold Np.squeeze_tolist. cbn [Np.asarray rbind fst snd]. rewrite Hshape.
      change (Np.tolist [length data] data)
        with (VList (map (Np.tolist []) (Np.rows (length data) 1 data))).
      now rewrite rows_of_one. }
    assert (H2 : Py.setitem_str (VDict d) "audio" (VList data)
                 = Ok (VDict (Py.dict_set "audio" (VList data) d))) by reflexivity.
    unfold_handlers. run_known. reflexivity.
  - intros Hshape x dumped -> Hdumps.
    assert (H1 : Np.squeeze_tolist (VArray shape [x]) = Ok x).
    { unfold Np.squeeze_tolist. cbn [Np.asarray rbind fst snd]. now rewrite Hshape. }
    assert (H2 : Py.setitem_str (VDict d) "audio" x
                 = Ok (VDict (Py.dict_set "audio" x d))) by reflexivity.
    unfold_handlers. run_known. reflexivity.
Qed.

(** X12 (text-to-image).  When the pipeline returns an object whose [images]
    attribute is a list that starts with an image, the ["data"] part is the
    PNG encoding of that first image as raw bytes (no JSON, and the other
    images are dropped).  An empty list of images gives the ErrorPayload of
    the [IndexError], and a result without the attribute gives the
    ErrorPayload of the [AttributeError]. *)
Theorem text_to_image_emits_first_png (cfg : TaskConfiguration)
        (inputs : Input) (s : string) (generated : pyval) (g g' : rng_state E) :
  Djl.get_as_string inputs "data" = Ok s ->
  pipe E (manual_seed E 42) (mkCall [VStr s] []) = (Ok generated, g') ->
  let r := text_to_image.handle cfg inputs g in
  (forall cls attrs png others,
     generated = VObj cls attrs ->
     Py.lookup "images" attrs = Some (VList (VImage png :: others)) ->
     value r = Ok (mkOutput [("data", VBytes png)]))
  /\ (forall cls attrs,
        generated = VObj cls attrs ->
        Py.lookup "images" attrs = Some (VList []) ->
        value r = Ok (error_output "list index out of range"))
  /\ (forall e,
        Py.getattr generated "images" = Raise e ->
        value r = Ok (error_output (exn_msg e))).
Proof.
  intros Hs Hpipe r. subst r.
  pose proof (get_as_string_size _ _ _ Hs) as Hsize.
  split; [|split].
  - intros cls attrs png others -> Himages.
    assert (H0 : Py.getattr (VObj cls attrs) "images" = Ok (VList (VImage png :: others)))
      by (unfold Py.getattr; now rewrite Himages).
    assert (H1 : Py.getitem_int (VList (VImage png :: others)) 0 = Ok (VImage png))
      by reflexivity.
    assert (H2 : text_to_image.save_png (VImage png) = Ok png) by reflexivity.
    unfold_handlers. run_known. reflexivity.
  - intros cls attrs -> Himages.
    assert (H0 : Py.getattr (VObj cls attrs) "images" = Ok (VList []))
      by (unfold Py.getattr; now rewrite Himages).
    assert (H1 : Py.getitem_int (VList []) 0 = Raise (IndexError "list index out of range"))
      by reflexivity.
    unfold_handlers. run_known. reflexivity.
  - intros e He.
    unfold_handlers. run_known. reflexivity.
Qed.

(** X13 (zero-shot, no label in the result).  With [return_top_label_only]
    true, a result whose ["labels"] list is empty gives the ErrorPayload of
    the [IndexError] raised by [result['labels'][0]]; the pipeline has been
    invoked once by then. *)
Theorem zero_shot_top_label_of_no_label (cfg : TaskConfiguration)
        (inputs : Input) (s : string) (text label : pyval) (labels : list pyval)
        (d : list (string * pyval)) (g g' : rng_state E) :
  return_top_label_only cfg = true ->
  Djl.get_as_string inputs "data" = Ok s ->
  Json.loads s = Ok (VList (text :: label :: labels)) ->
  let call := mkCall [text] [("candidate_labels", VList (label :: labels));
                             ("multi_label", VBool (multi_label cfg))] in
  pipe E (manual_seed E 42) call = (Ok (VDict d), g') ->
  Py.lookup "labels" d = Some (VList []) ->
  let r := zero_shot_classification.handle cfg inputs g in
  value r = Ok (error_output "list index out of range")
  /\ pipe_calls (events r) = [EvPipe call (Ok (VDict d))].
Proof.
  intros Htop Hs Hl call Hpipe Hlabels r. subst r call.
  pose proof (get_as_string_size _ _ _ Hs) as Hsize.
  assert (H0 : Py.getitem_int (VList (text :: label :: labels)) 0 = Ok text)
    by reflexivity.
  assert (H1 : Py.slice_from_1 (VList (text :: label :: labels))
               = Ok (VList (label :: labels))) by reflexivity.
  assert (H2 : Py.truthy (VList (label :: labels)) = Ok true) by reflexivity.
  assert (H3 : Py.getitem_str (VDict d) "labels" = Ok (VList []))
    by (unfold Py.getitem_str; now rewrite Hlabels).
  assert (H4 : Py.getitem_int (VList []) 0 = Raise (IndexError "list index out of range"))
    by reflexivity.
  unfold_handlers. run_known. split; reflexivity.
Qed.

(** X14 (a success that reads as a failure).  The chat script serializes
    whatever the pipeline returns: when the result is the object
    [{"error": m}], the response of the successful call is the very
    ErrorPayload a failure of message [m] would give, although nothing was
    logged. *)
Theorem chat_success_can_read_as_error (cfg : TaskConfiguration)
        (inputs : Input) (s m : string) (messages : pyval) (g g' : rng_state E) :
  Djl.get_as_string inputs "data" = Ok s ->
  Json.loads s = Ok messages ->
  pipe E (manual_seed E 42)
       (mkCall [messages] [("max_new_tokens", VInt (max_new_tokens cfg));
                           ("do_sample", VBool (do_sample cfg));
                           ("temperature", VFloat (temperature cfg))])
  = (Ok (VDict [("error", VStr m)]), g') ->
  let r := chat.handle cfg inputs g in
  value r = Ok (error_output m)
  /\ error_of (error_output m) = Some m
  /\ log_events (events r) = [].
Proof.
  intros Hs Hl Hpipe r. subst r.
  pose proof (get_as_string_size _ _ _ Hs) as Hsize.
  pose proof (dumps_error m) as Hd.
  unfold_handlers. run_known.
  split; [reflexivity|]. split; [apply error_of_error_output | reflexivity].
Qed.

(** X15 (speech recognition, the waveform).  The decoded JSON value is first
    converted to an array of 32-bit floats.  When the conversion raises, the
    response is the ErrorPayload of its exception and the pipeline is not
    invoked; when it succeeds, the pipeline is invoked once, on the converted
    array alone and in the generator state [handle] was called in. *)
Theorem speech_recognition_converts_then_invokes (cfg : TaskConfiguration)
        (inputs : Input) (s : string) (v : pyval) (g : rng_state E) :
  Djl.get_as_string inputs "data" = Ok s ->
  Json.loads s = Ok v ->
  let r := automatic_speech_recognition.handle cfg inputs g in
  (forall e,
     np_array_float32 E v = Raise e ->
     value r = Ok (error_output (exn_msg e))
     /\ pipe_calls (events r) = []
     /\ final r = g)
  /\ (forall waveform,
        np_array_float32 E v = Ok waveform ->
        pipe_calls (events r)
        = [EvPipe (mkCall [waveform] []) (fst (pipe E g (mkCall [waveform] [])))]).
Proof.
  intros Hs Hl r. subst r.
  pose proof (get_as_string_size _ _ _ Hs) as Hsize.
  split.
  - intros e He. unfold_handlers. run_known. repeat split.
  - intros waveform Hw. unfold_handlers. rewrite Hsize.
    rewrite run_bind_lift, Hs, run_bind_lift, Hl, run_bind_lift, Hw.
    run_all; reflexivity.
Qed.

(** X16 (chat, what the pipeline is given).  Whatever JSON value the input
    decodes to, the chat script seeds the generator and invokes the pipeline
    on that value as it is, with the three sampling parameters of the
    configuration. *)
Theorem chat_passes_messages_unmodified (cfg : TaskConfiguration)
        (inputs : Input) (s : string) (messages : pyval) (g : rng_state E) :
  Djl.get_as_string inputs "data" = Ok s ->
  Json.loads s = Ok messages ->
  let call := mkCall [messages] [("max_new_tokens", VInt (max_new_tokens cfg));
                                 ("do_sample", VBool (do_sample cfg));
                                 ("temperature", VFloat (temperature cfg))] in
  exists rest,
    events (chat.handle cfg inputs g)
    = EvSeed 42 :: EvPipe call (fst (pipe E (manual_seed E 42) call)) :: rest.
Proof.
  intros Hs Hl call. subst call.
  pose proof (get_as_string_size _ _ _ Hs) as Hsize.
  unfold_handlers. rewrite Hsize.
  rewrite run_bind_lift, Hs, run_bind_lift, Hl.
  run_all; eexists; reflexivity.
Qed.

(** X17 (speech recognition and chat, the response).  In these two scripts,
    when the pipeline returns [result], the response is the JSON text of
    [result] as it is; when [result] does not serialize (it holds bytes, an
    array or an object), the response is the ErrorPayload of the encoder's
    [TypeError], and that is the only case in which something is logged. *)
Theorem result_is_serialised_as_is (t : task) (cfg : TaskConfiguration)
        (inputs : Input) (g : rng_state E) (c : pycall) (result : pyval) :
  serialises_result t = true ->
  In (EvPipe c (Ok result)) (events (handle_of t cfg inputs g)) ->
  let r := handle_of t cfg inputs g in
  value r = Ok (match Json.dumps result with
                | Ok text => mkOutput [("data", VStr text)]
                | Raise e => error_output (exn_msg e)
                end)
  /\ (log_events (events r) = [] <-> exists text, Json.dumps result = Ok text).
Proof.
  intros Ht Hin r. subst r. revert Hin.
  destruct t; try discriminate Ht; unfold_handlers; run_all; intros Hin;
    in_cases Hin; try discriminate Hin; inversion Hin; subst;
    try congruence;
    match goal with
    | H1 : Json.dumps result = _, H2 : Json.dumps result = _ |- _ =>
        rewrite H1 in H2; injection H2 as <-
    end;
    (split; [reflexivity|]); cbn;
    (split; [intros H0; first [discriminate H0 | eexists; reflexivity]
            | intros [text H0]; first [discriminate H0 | reflexivity]]).
Qed.

End Extras.

(** ** Instances of the further properties *)

Lemma handle_reads_only_data_witness :
  let other := mkInput [("data", Text "a long text"); ("trace", Binary "x")] in
  (Djl.size (req "a long text") =? 0) = (Djl.size other =? 0)
  /\ Djl.get_as_string (req "a long text") "data" = Djl.get_as_string other "data"
  /\ @handle_of (stub (Ok (VList []))) Summarization cfg0 (req "a long text") 1%nat
     = @handle_of (stub (Ok (VList []))) Summarization cfg0 other 1%nat.
Proof.
  cbv zeta. split; [reflexivity|]. split; [reflexivity|].
  apply (@handle_reads_only_data (stub (Ok (VList []))) Summarization cfg0
           (req "a long text")
           (mkInput [("data", Text "a long text"); ("trace", Binary "x")]) 1%nat);
    reflexivity.
Defined.

Lemma empty_envelope_iff_warmup_witness :
  let out := mkOutput [("data", VStr "null")] in
  value (@handle_of (stub (Ok VNone)) Chat cfg0 (req "[]") 0%nat) = Ok out
  /\ (parts out = [] <-> Djl.size (req "[]") = 0)
  /\ (Djl.size (req "[]") <> 0 -> exists payload, parts out = [("data", payload)]).
Proof.
  cbv zeta. split; [reflexivity|].
  apply (@empty_envelope_iff_warmup (stub (Ok VNone)) Chat cfg0 (req "[]") 0%nat).
  reflexivity.
Defined.

Lemma unreadable_data_part_is_reported_witness :
  let inputs := mkInput [("body", Text "a cat")] in
  let m := "'NoneType' object has no attribute 'decode'" in
  Djl.size inputs <> 0
  /\ Djl.get_as_string inputs "data" = Raise (AttributeError m)
  /\ @handle_of (stub (Ok VNone)) TextToImage cfg0 inputs 3%nat
     = @mkRun (stub (Ok VNone)) Output (Ok (error_output m)) 3%nat
             [EvLog "ERROR" ("Error in handle function: " ++ m)].
Proof.
  cbv zeta.
  assert (Hsize : Djl.size (mkInput [("body", Text "a cat")]) <> 0)
    by (unfold Djl.size; simpl; lia).
  split; [exact Hsize|]. split; [reflexivity|].
  exact (@unreadable_data_part_is_reported (stub (Ok VNone)) TextToImage cfg0
           (mkInput [("body", Text "a cat")]) 3%nat
           (AttributeError "'NoneType' object has no attribute 'decode'")
           Hsize eq_refl).
Defined.

Lemma undecodable_json_is_reported_witness :
  let m := "Expecting value: line 1 column 1 (char 0)" in
  decodes_json QuestionAnswering = true
  /\ Djl.get_as_string (req "not json") "data" = Ok "not json"
  /\ Json.loads "not json" = Raise (mkExn "JSONDecodeError" m)
  /\ value (@handle_of (stub (Ok VNone)) QuestionAnswering cfg0 (req "not json") 5%nat)
     = Ok (error_output m)
  /\ pipe_calls (events (@handle_of (stub (Ok VNone)) QuestionAnswering cfg0
                           (req "not json") 5%nat)) = []
  /\ final (@handle_of (stub (Ok VNone)) QuestionAnswering cfg0 (req "not json") 5%nat)
     = 0%nat.
Proof.
  cbv zeta. split; [reflexivity|]. split; [reflexivity|]. split; [reflexivity|].
  exact (@undecodable_json_is_reported (stub (Ok VNone)) QuestionAnswering cfg0
           (req "not json") "not json" 5%nat
           (mkExn "JSONDecodeError" "Expecting value: line 1 column 1 (char 0)")
           eq_refl eq_refl eq_refl).
Defined.

Lemma question_answering_missing_key_witness :
  let text := jq "{'question': 'Where?'}" in
  let r := @question_answering.handle (stub (Ok VNone)) cfg0 (req text) 2%nat in
  Djl.get_as_string (req text) "data" = Ok text
  /\ Json.loads text = Ok (VDict [("question", VStr "Where?")])
  /\ value r = Ok (error_output "'context'")
  /\ pipe_calls (events r) = [].
Proof.
  cbv zeta. split; [reflexivity|]. split; [reflexivity|].
  exact (@question_answering_missing_key (stub (Ok VNone)) cfg0
           (req (jq "{'question': 'Where?'}")) (jq "{'question': 'Where?'}")
           [("question", VStr "Where?")] 2%nat eq_refl eq_refl (or_intror eq_refl)).
Defined.

Lemma raw_text_reaches_pipeline_witness :
  let call := mkCall [VStr "{not json"] [] in
  takes_raw_text TextClassification = true
  /\ Djl.get_as_string (req "{not json") "data" = Ok "{not json"
  /\ exists rest,
       events (@handle_of sampler TextClassification cfg0 (req "{not json") 7%nat)
       = EvSeed 42 :: EvPipe call (Ok (VInt 0)) :: rest.
Proof.
  cbv zeta. split; [reflexivity|]. split; [reflexivity|].
  exact (@raw_text_reaches_pipeline sampler TextClassification cfg0
           (req "{not json") "{not json" 7%nat eq_refl eq_refl).
Defined.

Lemma zero_shot_input_that_is_no_array_witness :
  let call := mkCall [VStr "h"] [("candidate_labels", VStr "i"); ("multi_label", VBool false)] in
  Djl.get_as_string (req (jq "'hi'")) "data" = Ok (jq "'hi'")
  /\ Json.loads (jq "'hi'") = Ok (VStr "hi")
  /\ pipe_calls (events (@zero_shot_classification.handle (stub (Ok labels_result)) cfg0
                           (req (jq "'hi'")) 4%nat))
     = [EvPipe call (Ok labels_result)]
  /\ Json.loads "12" = Ok (VInt 12)
  /\ exists m,
       value (@zero_shot_classification.handle (stub (Ok labels_result)) cfg0
                (req "12") 4%nat) = Ok (error_output m)
       /\ pipe_calls (events (@zero_shot_classification.handle (stub (Ok labels_result)) cfg0
                                (req "12") 4%nat)) = [].
Proof.
  cbv zeta. split; [reflexivity|]. split; [reflexivity|]. split.
  - exact (proj1 (proj2 (@zero_shot_input_that_is_no_array (stub (Ok labels_result)) cfg0
                           (req (jq "'hi'")) (jq "'hi'") (VStr "hi") 4%nat
                           eq_refl eq_refl))
                 "h"%char "i"%char EmptyString eq_refl).
  - split; [reflexivity|].
    exact (proj2 (proj2 (@zero_shot_input_that_is_no_array (stub (Ok labels_result)) cfg0
                           (req "12") "12" (VInt 12) 4%nat eq_refl eq_refl))
                 eq_refl).
Defined.

Lemma text_to_speech_keeps_other_fields_witness :
  let samples := VList [VFloat "0.1"; VFloat "0.2"] in
  let d := [("audio", VArray [1; 2]%nat [VFloat "0.1"; VFloat "0.2"]);
            ("sampling_rate", VInt 16000)] in
  let encoded := Py.dict_set "audio" samples d in
  Djl.get_as_string (req "hello") "data" = Ok "hello"
  /\ Np.squeeze_tolist (VArray [1; 2]%nat [VFloat "0.1"; VFloat "0.2"]) = Ok samples
  /\ value (@text_to_speech.handle (stub (Ok (VDict d))) cfg0 (req "hello") 3%nat)
     = Ok (mkOutput [("data", VStr (jq "{'audio': [0.1, 0.2], 'sampling_rate': 16000}"))])
  /\ map fst encoded = map fst d
  /\ Py.lookup "audio" encoded = Some samples
  /\ (forall k, k <> "audio" -> Py.lookup k encoded = Py.lookup k d).
Proof.
  cbv zeta. split; [reflexivity|]. split; [reflexivity|].
  exact (@text_to_speech_keeps_other_fields
           (stub (Ok (VDict [("audio", VArray [1; 2]%nat [VFloat "0.1"; VFloat "0.2"]);
                             ("sampling_rate", VInt 16000)])))
           cfg0 (req "hello") "hello"
           [("audio", VArray [1; 2]%nat [VFloat "0.1"; VFloat "0.2"]);
            ("sampling_rate", VInt 16000)]
           (VArray [1; 2]%nat [VFloat "0.1"; VFloat "0.2"])
           (VList [VFloat "0.1"; VFloat "0.2"])
           (jq "{'audio': [0.1, 0.2], 'sampling_rate': 16000}")
           3%nat 1%nat eq_refl eq_refl eq_refl eq_refl eq_refl).
Defined.

Lemma text_to_speech_audio_shapes_witness :
  let row := [("audio", VArray [1; 3; 1]%nat [VFloat "0.1"; VFloat "0.2"; VFloat "0.3"])] in
  let one := [("audio", VArray [1; 1]%nat [VFloat "0.5"])] in
  Djl.get_as_string (req "hello") "data" = Ok "hello"
  /\ Np.squeeze_shape [1; 3; 1]%nat = [3%nat]
  /\ value (@text_to_speech.handle (stub (Ok (VDict row))) cfg0 (req "hello") 3%nat)
     = Ok (mkOutput [("data", VStr (jq "{'audio': [0.1, 0.2, 0.3]}"))])
  /\ Np.squeeze_shape [1; 1]%nat = []
  /\ value (@text_to_speech.handle (stub (Ok (VDict one))) cfg0 (req "hello") 3%nat)
     = Ok (mkOutput [("data", VStr (jq "{'audio': 0.5}"))]).
Proof.
  cbv zeta. split; [reflexivity|]. split; [reflexivity|]. split; [|split; [reflexivity|]].
  - exact (proj1 (@text_to_speech_audio_shapes
                    (stub (Ok (VDict [("audio", VArray [1; 3; 1]%nat
                                                  [VFloat "0.1"; VFloat "0.2"; VFloat "0.3"])])))
                    cfg0 (req "hello") "hello"
                    [("audio", VArray [1; 3; 1]%nat [VFloat "0.1"; VFloat "0.2"; VFloat "0.3"])]
                    [1; 3; 1]%nat [VFloat "0.1"; VFloat "0.2"; VFloat "0.3"]
                    3%nat 1%nat eq_refl eq_refl eq_refl)
                 eq_refl (jq "{'audio': [0.1, 0.2, 0.3]}") eq_refl).
  - exact (proj2 (@text_to_speech_audio_shapes
                    (stub (Ok (VDict [("audio", VArray [1; 1]%nat [VFloat "0.5"])])))
                    cfg0 (req "hello") "hello"
                    [("audio", VArray [1; 1]%nat [VFloat "0.5"])]
                    [1; 1]%nat [VFloat "0.5"]
                    3%nat 1%nat eq_refl eq_refl eq_refl)
                 eq_refl (VFloat "0.5") (jq "{'audio': 0.5}") eq_refl eq_refl).
Defined.

Lemma text_to_image_emits_first_png_witness :
  let generated := VObj "StableDiffusionPipelineOutput"
                        [("images", VList [VImage "PNG1"; VImage "PNG2"])] in
  Djl.get_as_string (req "a cat") "data" = Ok "a cat"
  /\ value (@text_to_image.handle (stub (Ok generated)) cfg0 (req "a cat") 3%nat)
     = Ok (mkOutput [("data", VBytes "PNG1")])
  /\ value (@text_to_image.handle (stub (Ok (VObj "Out" [("images", VList [])]))) cfg0
              (req "a cat") 3%nat)
     = Ok (error_output "list index out of range").
Proof.
  cbv zeta. split; [reflexivity|]. split.
  - exact (proj1 (@text_to_image_emits_first_png
                    (stub (Ok (VObj "StableDiffusionPipelineOutput"
                                    [("images", VList [VImage "PNG1"; VImage "PNG2"])])))
                    cfg0 (req "a cat") "a cat"
                    (VObj "StableDiffusionPipelineOutput"
                          [("images", VList [VImage "PNG1"; VImage "PNG2"])])
                    3%nat 1%nat eq_refl eq_refl)
                 "StableDiffusionPipelineOutput"
                 [("images", VList [VImage "PNG1"; VImage "PNG2"])]
                 "PNG1" [VImage "PNG2"] eq_refl eq_refl).
  - exact (proj1 (proj2 (@text_to_image_emits_first_png
                           (stub (Ok (VObj "Out" [("images", VList [])])))
                           cfg0 (req "a cat") "a cat"
                           (VObj "Out" [("images", VList [])])
                           3%nat 1%nat eq_refl eq_refl))
                 "Out" [("images", VList [])] eq_refl eq_refl).
Defined.

Lemma zero_shot_top_label_of_no_label_witness :
  let text := jq "['text','label1']" in
  let d := [("labels", VList []); ("scores", VList [])] in
  let call := mkCall [VStr "text"] [("candidate_labels", VList [VStr "label1"]);
                                    ("multi_label", VBool false)] in
  return_top_label_only cfg0 = true
  /\ Djl.get_as_string (req text) "data" = Ok text
  /\ Json.loads text = Ok (VList [VStr "text"; VStr "label1"])
  /\ value (@zero_shot_classification.handle (stub (Ok (VDict d))) cfg0 (req text) 3%nat)
     = Ok (error_output "list index out of range")
  /\ pipe_calls (events (@zero_shot_classification.handle (stub (Ok (VDict d))) cfg0
                           (req text) 3%nat))
     = [EvPipe call (Ok (VDict d))].
Proof.
  cbv zeta. split; [reflexivity|]. split; [reflexivity|]. split; [reflexivity|].
  exact (@zero_shot_top_label_of_no_label
           (stub (Ok (VDict [("labels", VList []); ("scores", VList [])])))
           cfg0 (req (jq "['text','label1']")) (jq "['text','label1']")
           (VStr "text") (VStr "label1") []
           [("labels", VList []); ("scores", VList [])] 3%nat 1%nat
           eq_refl eq_refl eq_refl eq_refl eq_refl).
Defined.

Lemma chat_success_can_read_as_error_witness :
  let r := @chat.handle (stub (Ok (VDict [("error", VStr "boom")]))) cfg0 (req "[]") 3%nat in
  Djl.get_as_string (req "[]") "data" = Ok "[]"
  /\ Json.loads "[]" = Ok (VList [])
  /\ value r = Ok (error_output "boom")
  /\ error_of (error_output "boom") = Some "boom"
  /\ log_events (events r) = [].
Proof.
  cbv zeta. split; [reflexivity|]. split; [reflexivity|].
  exact (@chat_success_can_read_as_error (stub (Ok (VDict [("error", VStr "boom")])))
           cfg0 (req "[]") "[]" "boom" (VList []) 3%nat 1%nat
           eq_refl eq_refl eq_refl).
Defined.

Lemma speech_recognition_converts_then_invokes_witness :
  let m := "could not convert string to float: 'a'" in
  let r := @automatic_speech_recognition.handle deaf cfg0 (req (jq "['a']")) 3%nat in
  let r' := @automatic_speech_recognition.handle sampler cfg0 (req "[0.5]") 3%nat in
  Djl.get_as_string (req (jq "['a']")) "data" = Ok (jq "['a']")
  /\ Json.loads (jq "['a']") = Ok (VList [VStr "a"])
  /\ (value r = Ok (error_output m) /\ pipe_calls (events r) = [] /\ final r = 3%nat)
  /\ Json.loads "[0.5]" = Ok (VList [VFloat "0.5"])
  /\ pipe_calls (events r')
     = [EvPipe (mkCall [VArray [0%nat] []] []) (Ok (VInt 3))].
Proof.
  cbv zeta. split; [reflexivity|]. split; [reflexivity|]. split; [|split; [reflexivity|]].
  - exact (proj1 (@speech_recognition_converts_then_invokes deaf cfg0
                    (req (jq "['a']")) (jq "['a']") (VList [VStr "a"]) 3%nat
                    eq_refl eq_refl)
                 (ValueError "could not convert string to float: 'a'") eq_refl).
  - exact (proj2 (@speech_recognition_converts_then_invokes sampler cfg0
                    (req "[0.5]") "[0.5]" (VList [VFloat "0.5"]) 3%nat
                    eq_refl eq_refl)
                 (VArray [0%nat] []) eq_refl).
Defined.

Lemma chat_passes_messages_unmodified_witness :
  let text := jq "[{'role': 'user', 'content': 'hi'}]" in
  let messages := VList [VDict [("role", VStr "user"); ("content", VStr "hi")]] in
  Djl.get_as_string (req text) "data" = Ok text
  /\ Json.loads text = Ok messages
  /\ exists rest,
       events (@chat.handle sampler cfg0 (req text) 9%nat)
       = EvSeed 42 :: EvPipe (mkCall [messages] chat_kwargs0) (Ok (VInt 0)) :: rest.
Proof.
  cbv zeta. split; [reflexivity|]. split; [reflexivity|].
  exact (@chat_passes_messages_unmodified sampler cfg0
           (req (jq "[{'role': 'user', 'content': 'hi'}]"))
           (jq "[{'role': 'user', 'content': 'hi'}]")
           (VList [VDict [("role", VStr "user"); ("content", VStr "hi")]])
           9%nat eq_refl eq_refl).
Defined.

Lemma result_is_serialised_as_is_witness :
  let r := @handle_of (stub (Ok (VBytes "raw"))) Chat cfg0 (req "[]") 3%nat in
  serialises_result Chat = true
  /\ In (EvPipe (mkCall [VList []] chat_kwargs0) (Ok (VBytes "raw"))) (events r)
  /\ value r = Ok (error_output "Object of type bytes is not JSON serializable")
  /\ (log_events (events r) = [] <-> exists text, Json.dumps (VBytes "raw") = Ok text).
Proof.
  cbv zeta.
  assert (Hin : In (EvPipe (mkCall [VList []] chat_kwargs0) (Ok (VBytes "raw")))
                   (events (@handle_of (stub (Ok (VBytes "raw"))) Chat cfg0 (req "[]") 3%nat)))
    by (right; left; reflexivity).
  split; [reflexivity|]. split; [exact Hin|].
  exact (@result_is_serialised_as_is (stub (Ok (VBytes "raw"))) Chat cfg0 (req "[]") 3%nat
           (mkCall [VList []] chat_kwargs0) (VBytes "raw") eq_refl Hin).
Defined.
